(** * waffle_hub.utils.callback: progress handles for tasks run on a worker thread

    A shallow embedding of [src/waffle_hub/utils/callback.py]
    ([ThreadProgressCallback] and its subclasses [TrainCallback],
    [InferenceCallback], [ExportCallback]) and the properties of its
    progress/completion contract.

    Modelling conventions.
    - Python [int] is [Z].  Python [float] values that the handle stores or
      compares ([_progress], [_start_time], the clock) are exact rationals
      [Q]: [step / total_steps] is the exact quotient, and binary64 rounding,
      underflow and overflow are not part of this model.  [float("inf")] is
      the extra value [inf] of [pyfloat].  Where a property needs a division
      to return, or a result to be finite, it is stated for operands within
      [float_range], where the doubles do not overflow.  The module
      [Binary64] embeds [update] and [get_remaining_time] a second time, over
      IEEE doubles, to run them where rounding and overflow decide.
    - A method is a computation in the monad [M]: it reads and writes the
      object ([self]) and the outside world, and either returns or raises.
      What a method wrote before it raised stays written, as in Python.
    - The outside world holds what [time.time()] returns, the messages given
      to [warnings.warn], the state of the [threading.Thread] objects and the
      environment that the caller's metric function reads. *)

From Stdlib Require Import ZArith QArith Qabs Qfield Lqa Lia Bool List String.
From Stdlib Require SpecFloat.
Import ListNotations.

Set Implicit Arguments.

(** ** Results of a call *)

Inductive exn : Set :=
| ZeroDivisionError
| RuntimeError.

Inductive outcome (A : Type) : Type :=
| Returned (a : A)
| Raised (e : exn).
Arguments Returned {A} a.
Arguments Raised {A} e.

(** A Python float as [get_remaining_time] returns it: [float("inf")] or a
    number. *)
Inductive pyfloat : Set :=
| inf
| fin (q : Q).

(** ** threading.Thread *)

Definition Thread := nat.

Inductive thread_state : Set :=
| Initial
| Started
| Stopped.

Section Callback.

(** One record of the metric function's result, and the environment (files,
    trainer state) that the caller's metric function reads. *)
Variable Metric : Type.
Variable Env : Type.

Record World : Type := mkWorld {
  clock : Q;
  warnings : list string;
  threads : Thread -> thread_state;
  env : Env
}.

(** ** The object

    [ThreadProgressCallback X] is an instance whose class adds the fields [X]
    to the ones [ThreadProgressCallback.__init__] creates; the base class
    itself has [X := unit]. *)

Record ThreadProgressCallback (X : Type) : Type := mkCallback {
  _total_steps : Z;
  _thread : option Thread;
  _finished : bool;
  _progress : Q;
  _start_time : Q;
  subclass_fields : X
}.

Record Machine (X : Type) : Type := mkMachine {
  self : ThreadProgressCallback X;
  world : World
}.

(** ** The monad of methods *)

Definition M (X A : Type) : Type := Machine X -> outcome A * Machine X.

Definition ret {X A} (a : A) : M X A := fun m => (Returned a, m).

Definition raise {X A} (e : exn) : M X A := fun m => (Raised e, m).

Definition bind {X A B} (c : M X A) (k : A -> M X B) : M X B :=
  fun m =>
    match c m with
    | (Returned a, m') => k a m'
    | (Raised e, m') => (Raised e, m')
    end.

Notation "x <- c ;; k" := (bind c (fun x => k))
  (at level 61, c at next level, right associativity).
Notation "c ;; k" := (bind c (fun _ => k))
  (at level 61, right associativity).

Definition attr {X A} (f : ThreadProgressCallback X -> A) : M X A :=
  fun m => (Returned (f (self m)), m).

Definition assign {X} (f : ThreadProgressCallback X -> ThreadProgressCallback X)
  : M X unit :=
  fun m => (Returned tt, mkMachine (f (self m)) (world m)).

Definition set_thread {X} (t : option Thread) : M X unit :=
  assign (fun s : ThreadProgressCallback X =>
    mkCallback (_total_steps s) t (_finished s) (_progress s)
               (_start_time s) (subclass_fields s)).

Definition set_finished {X} (b : bool) : M X unit :=
  assign (fun s : ThreadProgressCallback X =>
    mkCallback (_total_steps s) (_thread s) b (_progress s)
               (_start_time s) (subclass_fields s)).

Definition set_progress {X} (p : Q) : M X unit :=
  assign (fun s : ThreadProgressCallback X =>
    mkCallback (_total_steps s) (_thread s) (_finished s) p
               (_start_time s) (subclass_fields s)).

Definition set_subclass_fields {X} (x : X) : M X unit :=
  assign (fun s : ThreadProgressCallback X =>
    mkCallback (_total_steps s) (_thread s) (_finished s) (_progress s)
               (_start_time s) x).

(** ** The world's services *)

(** [time.time()] *)
Definition time_time {X} : M X Q :=
  fun m => (Returned (clock (world m)), m).

(** [warnings.warn(msg)]: the message is recorded, the call returns. *)
Definition warnings_warn {X} (msg : string) : M X unit :=
  fun m =>
    let w := world m in
    (Returned tt,
     mkMachine (self m)
       (mkWorld (clock w) (msg :: warnings w) (threads w) (env w))).

Definition set_thread_state (w : World) (t : Thread) (s : thread_state)
  : World :=
  mkWorld (clock w) (warnings w)
    (fun t' => if Nat.eqb t' t then s else threads w t') (env w).

(** [Thread.start()]: a thread is started at most once. *)
Definition Thread_start {X} (t : Thread) : M X unit :=
  fun m =>
    match threads (world m) t with
    | Initial =>
        (Returned tt, mkMachine (self m) (set_thread_state (world m) t Started))
    | _ => (Raised RuntimeError, m)
    end.

(** [Thread.join()]: joining a thread that was never started is an error;
    otherwise the call returns when the thread has stopped. *)
Definition Thread_join {X} (t : Thread) : M X unit :=
  fun m =>
    match threads (world m) t with
    | Initial => (Raised RuntimeError, m)
    | _ =>
        (Returned tt, mkMachine (self m) (set_thread_state (world m) t Stopped))
    end.

(** [a / b] on two ints, as the exact quotient.  Python rounds the quotient
    to a double and raises [OverflowError] when the rounded quotient is not
    finite; that is [Binary64.true_div] below, and the properties that need
    this division to return are stated within [float_range]. *)
Definition true_div {X} (a b : Z) : M X Q :=
  if (b =? 0)%Z then raise ZeroDivisionError
  else ret (inject_Z a / inject_Z b).

(** ** class ThreadProgressCallback *)

Definition ThreadProgressCallback_init (total_steps : Z) (w : World)
  : ThreadProgressCallback unit :=
  mkCallback total_steps None false 0 (clock w) tt.

Definition get_progress {X} : M X Q :=
  attr (@_progress X).

Definition is_finished {X} : M X bool :=
  attr (@_finished X).

(** Over exact rationals [elapsed / progress - elapsed] is a number for
    every progress that is not 0; over doubles the division can overflow to
    [inf] ([Binary64.get_remaining_time] below). *)
Definition get_remaining_time {X} : M X pyfloat :=
  now <- time_time ;;
  start_time <- attr (@_start_time X) ;;
  let elapsed := now - start_time in
  progress <- attr (@_progress X) ;;
  if Qeq_bool progress 0 then ret inf
  else ret (fin (elapsed / progress - elapsed)).

Definition update {X} (step : Z) : M X unit :=
  finished <- attr (@_finished X) ;;
  if finished then warnings_warn "Callback has already ended"
  else
    total_steps <- attr (@_total_steps X) ;;
    if (step >=? total_steps)%Z then
      set_finished true ;;
      p <- true_div step total_steps ;;
      set_progress p
    else
      p <- true_div step total_steps ;;
      set_progress p.

Definition force_finish {X} : M X unit :=
  set_finished true.

Definition register_thread {X} (thread : Thread) : M X unit :=
  set_thread (Some thread).

Definition start {X} : M X unit :=
  thread <- attr (@_thread X) ;;
  match thread with
  | Some t => Thread_start t
  | None => ret tt
  end.

Definition join {X} : M X unit :=
  thread <- attr (@_thread X) ;;
  match thread with
  | Some t => Thread_join t
  | None => ret tt
  end.

(** ** class TrainCallback(ThreadProgressCallback) *)

(** The caller's [get_metric_func]: called with no argument, it reads (and
    may change) the environment and returns the accumulated metric records,
    or raises. *)
Definition metric_func : Type := Env -> outcome (list Metric) * Env.

Record TrainFields : Type := mkTrainFields {
  _best_ckpt_file : option string;
  _last_ckpt_file : option string;
  _result_dir : option string;
  _metric_file : option string;
  _get_metric_func : metric_func
}.

Definition with_fields {X Y} (s : ThreadProgressCallback X) (y : Y)
  : ThreadProgressCallback Y :=
  mkCallback (_total_steps s) (_thread s) (_finished s) (_progress s)
             (_start_time s) y.

Definition TrainCallback_init (total_steps : Z) (get_metric_func : metric_func)
  (w : World) : ThreadProgressCallback TrainFields :=
  with_fields (ThreadProgressCallback_init total_steps w)
    (mkTrainFields None None None None get_metric_func).

Definition field {X A} (f : X -> A) : M X A :=
  attr (fun s : ThreadProgressCallback X => f (subclass_fields s)).

Definition best_ckpt_file : M TrainFields (option string) :=
  field _best_ckpt_file.

Definition set_best_ckpt_file (path : string) : M TrainFields unit :=
  x <- attr (@subclass_fields TrainFields) ;;
  set_subclass_fields
    (mkTrainFields (Some path) (_last_ckpt_file x) (_result_dir x)
                   (_metric_file x) (_get_metric_func x)).

Definition last_ckpt_file : M TrainFields (option string) :=
  field _last_ckpt_file.

Definition set_last_ckpt_file (path : string) : M TrainFields unit :=
  x <- attr (@subclass_fields TrainFields) ;;
  set_subclass_fields
    (mkTrainFields (_best_ckpt_file x) (Some path) (_result_dir x)
                   (_metric_file x) (_get_metric_func x)).

Definition result_dir : M TrainFields (option string) :=
  field _result_dir.

Definition metric_file : M TrainFields (option string) :=
  field _metric_file.

Definition set_metric_file (path : string) : M TrainFields unit :=
  x <- attr (@subclass_fields TrainFields) ;;
  set_subclass_fields
    (mkTrainFields (_best_ckpt_file x) (_last_ckpt_file x) (_result_dir x)
                   (Some path) (_get_metric_func x)).

Definition set_result_dir (path : string) : M TrainFields unit :=
  x <- attr (@subclass_fields TrainFields) ;;
  set_subclass_fields
    (mkTrainFields (_best_ckpt_file x) (_last_ckpt_file x) (Some path)
                   (_metric_file x) (_get_metric_func x)).

(** [self._get_metric_func()] *)
Definition call_get_metric_func : M TrainFields (list Metric) :=
  fun m =>
    let w := world m in
    let (r, e) := _get_metric_func (subclass_fields (self m)) (env w) in
    (r, mkMachine (self m) (mkWorld (clock w) (warnings w) (threads w) e)).

Definition get_metrics : M TrainFields (list Metric) :=
  call_get_metric_func.

Definition len {A} (l : list A) : Z := Z.of_nat (List.length l).

Definition TrainCallback_get_progress : M TrainFields Q :=
  metrics <- call_get_metric_func ;;
  if (len metrics =? 0)%Z then ret 0
  else
    update (len metrics) ;;
    total_steps <- attr (@_total_steps TrainFields) ;;
    p <- true_div (len metrics) total_steps ;;
    set_progress p ;;
    attr (@_progress TrainFields).

(** ** class InferenceCallback(ThreadProgressCallback) *)

Record InferenceFields : Type := mkInferenceFields {
  _inference_dir : option string;
  _draw_dir : option string
}.

Definition InferenceCallback_init (total_steps : Z) (w : World)
  : ThreadProgressCallback InferenceFields :=
  with_fields (ThreadProgressCallback_init total_steps w)
    (mkInferenceFields None None).

Definition inference_dir : M InferenceFields (option string) :=
  field _inference_dir.

Definition set_inference_dir (path : string) : M InferenceFields unit :=
  x <- attr (@subclass_fields InferenceFields) ;;
  set_subclass_fields (mkInferenceFields (Some path) (_draw_dir x)).

Definition draw_dir : M InferenceFields (option string) :=
  field _draw_dir.

Definition set_draw_dir (path : string) : M InferenceFields unit :=
  x <- attr (@subclass_fields InferenceFields) ;;
  set_subclass_fields (mkInferenceFields (_inference_dir x) (Some path)).

(** ** class ExportCallback(ThreadProgressCallback) *)

Record ExportFields : Type := mkExportFields {
  _export_file : option string
}.

Definition ExportCallback_init (total_steps : Z) (w : World)
  : ThreadProgressCallback ExportFields :=
  with_fields (ThreadProgressCallback_init total_steps w)
    (mkExportFields None).

Definition export_file : M ExportFields (option string) :=
  field _export_file.

Definition set_export_file (path : string) : M ExportFields unit :=
  set_subclass_fields (mkExportFields (Some path)).

(** ** Calls and call sequences

    A call names a method and its arguments.  [inherited] calls are the
    methods of [ThreadProgressCallback], which every class has; [own] calls
    are the ones a subclass adds.  A class says which [get_progress] its
    instances run (the training variant overrides it) and how its own calls
    run. *)

Inductive method : Set :=
| call_get_progress
| call_is_finished
| call_get_remaining_time
| call_update (step : Z)
| call_force_finish
| call_register_thread (thread : Thread)
| call_start
| call_join.

Inductive call (S : Type) : Type :=
| inherited (c : method)
| own (c : S).
Arguments inherited {S} c.
Arguments own {S} c.

Record class (X S : Type) : Type := mkClass {
  class_get_progress : M X Q;
  class_own : S -> M X unit
}.

Definition discard {X A} (c : M X A) : M X unit :=
  _ <- c ;; ret tt.

(** A call of an inherited method; [get_progress] is the one the class of
    the object defines. *)
Definition invoke_inherited {X} (get_progress : M X Q) (c : method)
  : M X unit :=
  match c with
  | call_get_progress => discard get_progress
  | call_is_finished => discard is_finished
  | call_get_remaining_time => discard get_remaining_time
  | call_update step => update step
  | call_force_finish => force_finish
  | call_register_thread t => register_thread t
  | call_start => start
  | call_join => join
  end.

Definition invoke {X S} (C : class X S) (c : call S) : M X unit :=
  match c with
  | inherited c => invoke_inherited (class_get_progress C) c
  | own c => class_own C c
  end.

Definition ThreadProgressCallback_class : class unit Empty_set :=
  mkClass get_progress (fun c : Empty_set => match c with end).

Inductive train_method : Set :=
| call_best_ckpt_file
| call_set_best_ckpt_file (path : string)
| call_last_ckpt_file
| call_set_last_ckpt_file (path : string)
| call_result_dir
| call_set_result_dir (path : string)
| call_metric_file
| call_set_metric_file (path : string)
| call_get_metrics.

Definition TrainCallback_class : class TrainFields train_method :=
  mkClass TrainCallback_get_progress
    (fun c =>
       match c with
       | call_best_ckpt_file => discard best_ckpt_file
       | call_set_best_ckpt_file path => set_best_ckpt_file path
       | call_last_ckpt_file => discard last_ckpt_file
       | call_set_last_ckpt_file path => set_last_ckpt_file path
       | call_result_dir => discard result_dir
       | call_set_result_dir path => set_result_dir path
       | call_metric_file => discard metric_file
       | call_set_metric_file path => set_metric_file path
       | call_get_metrics => discard get_metrics
       end).

Inductive inference_method : Set :=
| call_inference_dir
| call_set_inference_dir (path : string)
| call_draw_dir
| call_set_draw_dir (path : string).

Definition InferenceCallback_class : class InferenceFields inference_method :=
  mkClass get_progress
    (fun c =>
       match c with
       | call_inference_dir => discard inference_dir
       | call_set_inference_dir path => set_inference_dir path
       | call_draw_dir => discard draw_dir
       | call_set_draw_dir path => set_draw_dir path
       end).

Inductive export_method : Set :=
| call_export_file
| call_set_export_file (path : string).

Definition ExportCallback_class : class ExportFields export_method :=
  mkClass get_progress
    (fun c =>
       match c with
       | call_export_file => discard export_file
       | call_set_export_file path => set_export_file path
       end).

(** What happens to a handle over time: calls on it, by its owner or by the
    worker (each call runs to its end before the next starts), and changes
    of the outside world in between (the clock advances, the trainer writes
    metrics, threads stop).  A call that raises leaves the handle as it was
    at the raise, and later calls go on from there. *)
Inductive event (S : Type) : Type :=
| Call (c : call S)
| Outside (f : World -> World).
Arguments Call {S} c.
Arguments Outside {S} f.

Definition step {X S} (C : class X S) (m : Machine X) (e : event S)
  : Machine X :=
  match e with
  | Call c => snd (invoke C c m)
  | Outside f => mkMachine (self m) (f (world m))
  end.

Definition run {X S} (C : class X S) (es : list (event S)) (m : Machine X)
  : Machine X :=
  fold_left (step C) es m.

End Callback.

Arguments inherited {S} c.
Arguments own {S} c.
Arguments Call {Env S} c.
Arguments Outside {Env S} f.

(** ** The range of a float

    Python's [a / b] on two ints returns the quotient rounded to a double and
    raises [OverflowError] when the rounded quotient reaches 2^1024; a float
    operation whose result reaches 2^1024 gives [inf].  Below 2^1022 neither
    happens, also not for the difference of two such numbers. *)
Definition float_range (a b : Z) : Prop :=
  (Z.abs a < 2 ^ 1022 * Z.abs b)%Z.


(** ** The same methods over IEEE doubles

    [update] and [get_remaining_time] once more, with [_progress],
    [_start_time] and the clock as binary64 values and [a / b] on two ints
    as Python computes it: the quotient rounded to the nearest double, ties
    to even, and [OverflowError] when that is not finite.  The int [0] that
    [__init__] stores in [_progress] is the double [+0.0], which compares
    equal to it. *)
Module Binary64.

Import SpecFloat.

Definition prec : Z := 53.
Definition emax : Z := 1024.

Inductive error : Set :=
| ZeroDivisionError
| OverflowError.

(** [float(z)] for an int of at most 53 bits. *)
Definition float_of_int (z : Z) : spec_float :=
  binary_normalize prec emax z 0 false.

(** The quotient of two ints, rounded to the nearest double. *)
Definition rounded_quotient (a b : Z) : spec_float :=
  let '(q, e, l) := SFdiv_core_binary prec emax (Z.abs a) 0 (Z.abs b) 0 in
  binary_round_aux prec emax (xorb (a <? 0)%Z (b <? 0)%Z) q e l.

(** [a / b] on two ints. *)
Definition true_div (a b : Z) : spec_float + error :=
  if (b =? 0)%Z then inr ZeroDivisionError
  else
    match rounded_quotient a b with
    | S754_infinity _ => inr OverflowError
    | q => inl q
    end.

Record Callback : Set := mkCallback {
  _total_steps : Z;
  _thread : option Thread;
  _finished : bool;
  _progress : spec_float;
  _start_time : spec_float;
  warnings : list string
}.

Definition init (total_steps : Z) (now : spec_float) : Callback :=
  mkCallback total_steps None false (S754_zero false) now [].

Definition set_progress (p : spec_float) (h : Callback) : Callback :=
  mkCallback (_total_steps h) (_thread h) (_finished h) p (_start_time h)
             (warnings h).

Definition set_finished (b : bool) (h : Callback) : Callback :=
  mkCallback (_total_steps h) (_thread h) b (_progress h) (_start_time h)
             (warnings h).

Definition warn (msg : string) (h : Callback) : Callback :=
  mkCallback (_total_steps h) (_thread h) (_finished h) (_progress h)
             (_start_time h) (msg :: warnings h).

(** [update(step)]: what it raises, if anything, and the object it
    leaves. *)
Definition update (step : Z) (h : Callback) : option error * Callback :=
  if _finished h then (None, warn "Callback has already ended" h)
  else if (step >=? _total_steps h)%Z then
    let h1 := set_finished true h in
    match true_div step (_total_steps h1) with
    | inl p => (None, set_progress p h1)
    | inr e => (Some e, h1)
    end
  else
    match true_div step (_total_steps h) with
    | inl p => (None, set_progress p h)
    | inr e => (Some e, h)
    end.

(** [get_remaining_time()] when [time.time()] returns [now]. *)
Definition get_remaining_time (now : spec_float) (h : Callback)
  : spec_float :=
  let elapsed := SFsub prec emax now (_start_time h) in
  if SFeqb (_progress h) (S754_zero false) then S754_infinity false
  else SFsub prec emax (SFdiv prec emax elapsed (_progress h)) elapsed.

End Binary64.

(** ** Concrete handles, used to run the model on explicit inputs *)

Definition world0 : World unit :=
  mkWorld 0 [] (fun _ => Initial) tt.

(** [ThreadProgressCallback(total_steps)], created in [world0]. *)
Definition new_handle (total_steps : Z) : Machine unit unit :=
  mkMachine (ThreadProgressCallback_init total_steps world0) world0.

(** A trainer whose environment is the number of epochs it has written so
    far, and a metric function that returns one record per epoch. *)
Definition epochs_metric_func : metric_func unit nat :=
  fun epochs => (Returned (repeat tt epochs), epochs).

Definition train_world (epochs : nat) : World nat :=
  mkWorld 0 [] (fun _ => Initial) epochs.

(** [TrainCallback(total_steps, epochs_metric_func)], with [epochs] epochs
    written. *)
Definition new_train_handle (total_steps : Z) (epochs : nat)
  : Machine nat (TrainFields unit nat) :=
  mkMachine
    (TrainCallback_init total_steps epochs_metric_func (train_world epochs))
    (train_world epochs).

(** A metric function that fails, and a training handle that uses it. *)
Definition failing_metric_func : metric_func unit nat :=
  fun epochs => (Raised RuntimeError, epochs).

Definition new_failing_train_handle (total_steps : Z)
  : Machine nat (TrainFields unit nat) :=
  mkMachine
    (TrainCallback_init total_steps failing_metric_func (train_world 0))
    (train_world 0).

(** The exact quotient [a / b] of two ints. *)
Definition quotient (a b : Z) : Q := inject_Z a / inject_Z b.

(** ** States that [update] leaves behind *)

(** The world after [warnings.warn(msg)]. *)
Definition warned {Env} (msg : string) (w : World Env) : World Env :=
  mkWorld (clock w) (msg :: warnings w) (threads w) (env w).

(** The object after [update(step)] wrote both of its fields. *)
Definition updated {X} (step : Z) (s : ThreadProgressCallback X)
  : ThreadProgressCallback X :=
  mkCallback (_total_steps s) (_thread s) (step >=? _total_steps s)%Z
             (quotient step (_total_steps s)) (_start_time s)
             (subclass_fields s).

(** The object after [update(step)] wrote [_finished] (when [step] reaches
    [total_steps]) and then failed to divide. *)
Definition half_updated {X} (step : Z) (s : ThreadProgressCallback X)
  : ThreadProgressCallback X :=
  mkCallback (_total_steps s) (_thread s) (step >=? _total_steps s)%Z
             (_progress s) (_start_time s) (subclass_fields s).

(** The world after the metric function left the environment [e]. *)
Definition with_env {Env} (e : Env) (w : World Env) : World Env :=
  mkWorld (clock w) (warnings w) (threads w) e.

(** The object after the training variant's [get_progress()] counted [n]
    records. *)
Definition recounted {X} (n : Z) (s : ThreadProgressCallback X)
  : ThreadProgressCallback X :=
  mkCallback (_total_steps s) (_thread s)
             (_finished s || (n >=? _total_steps s)%Z)
             (quotient n (_total_steps s)) (_start_time s)
             (subclass_fields s).

(** ** Step counts along a run *)

(** The arguments of the [update] calls of a run, in call order. *)
Definition steps_of {Env S} (es : list (event Env S)) : list Z :=
  flat_map
    (fun e =>
       match e with
       | Call (inherited (call_update step)) => [step]
       | _ => []
       end) es.

(** Step counts that start at or above [lo] and never go back. *)
Fixpoint ascending (lo : Z) (steps : list Z) : Prop :=
  match steps with
  | [] => True
  | step :: steps' => (lo <= step)%Z /\ ascending step steps'
  end.

(** ** Invariants of the object

    A computation preserves [P] when, started on an object that satisfies
    [P], it leaves one that satisfies [P], whether it returns or raises. *)
Definition preserves {Env X A} (P : ThreadProgressCallback X -> Prop)
  (c : M Env X A) : Prop :=
  forall m, P (self m) -> P (self (snd (c m))).

(** A computation that does not write the object at all. *)
Definition keeps_self {Env X A} (c : M Env X A) : Prop :=
  forall m, self (snd (c m)) = self m.

(** The two invariants of the data model. *)
Definition is_done {X} (s : ThreadProgressCallback X) : Prop :=
  _finished s = true.

Definition has_total {X} (n : Z) (s : ThreadProgressCallback X) : Prop :=
  _total_steps s = n.

Ltac unfold_methods :=
  unfold update, get_progress, is_finished, get_remaining_time, force_finish,
    register_thread, start, join, true_div, time_time, warnings_warn,
    set_finished, set_progress, set_thread, set_subclass_fields, discard,
    field, assign, attr, bind, ret, raise; simpl.

(** ** The object as a function of the calls

    What the inherited methods write, as functions on the object alone.
    The lemmas below show that the methods do exactly this. *)

(** The fields that [ThreadProgressCallback.__init__] creates, without the
    ones a subclass adds. *)
Definition base_fields {X} (s : ThreadProgressCallback X)
  : ThreadProgressCallback unit :=
  with_fields s tt.

Definition finished_set {X} (s : ThreadProgressCallback X)
  : ThreadProgressCallback X :=
  mkCallback (_total_steps s) (_thread s) true (_progress s)
             (_start_time s) (subclass_fields s).

Definition thread_set {X} (t : Thread) (s : ThreadProgressCallback X)
  : ThreadProgressCallback X :=
  mkCallback (_total_steps s) (Some t) (_finished s) (_progress s)
             (_start_time s) (subclass_fields s).

(** The object after a call of an inherited method, where [get_progress] is
    the one of the base class. *)
Definition after_inherited {X} (c : method) (s : ThreadProgressCallback X)
  : ThreadProgressCallback X :=
  match c with
  | call_update step =>
      if _finished s then s
      else if (_total_steps s =? 0)%Z then half_updated step s
      else updated step s
  | call_force_finish => finished_set s
  | call_register_thread t => thread_set t s
  | _ => s
  end.

(** The object after an event; [own_effect] is what the class's own calls
    write. *)
Definition after_event {Env X S}
  (own_effect : S -> ThreadProgressCallback X -> ThreadProgressCallback X)
  (s : ThreadProgressCallback X) (e : event Env S)
  : ThreadProgressCallback X :=
  match e with
  | Call (inherited c) => after_inherited c s
  | Call (own c) => own_effect c s
  | Outside _ => s
  end.

(** A class is plain when it keeps the base class's [get_progress] and its
    own calls write the object as a function of the object alone, leaving
    the base fields as they are. *)
Definition plain_with {Env X S} (C : class Env X S)
  (own_effect : S -> ThreadProgressCallback X -> ThreadProgressCallback X)
  : Prop :=
  class_get_progress C = @get_progress Env X /\
  (forall c m, self (snd (class_own C c m)) = own_effect c (self m)) /\
  (forall c s, base_fields (own_effect c s) = base_fields s).

Definition plain {Env X S} (C : class Env X S) : Prop :=
  exists own_effect, plain_with C own_effect.

(** What the own calls of [InferenceCallback] and [ExportCallback] write. *)
Definition inference_effect (c : inference_method)
  (s : ThreadProgressCallback InferenceFields)
  : ThreadProgressCallback InferenceFields :=
  match c with
  | call_set_inference_dir path =>
      with_fields s
        (mkInferenceFields (Some path) (_draw_dir (subclass_fields s)))
  | call_set_draw_dir path =>
      with_fields s
        (mkInferenceFields (_inference_dir (subclass_fields s)) (Some path))
  | _ => s
  end.

Definition export_effect (c : export_method)
  (s : ThreadProgressCallback ExportFields)
  : ThreadProgressCallback ExportFields :=
  match c with
  | call_set_export_file path => with_fields s (mkExportFields (Some path))
  | call_export_file => s
  end.

(** The calls of a run, without the changes of the outside world. *)
Definition calls_of {Env S} (es : list (event Env S)) : list (call S) :=
  flat_map
    (fun e =>
       match e with
       | Call c => [c]
       | Outside _ => []
       end) es.

(** More invariants: the start time, and a progress that no longer moves. *)
Definition started_at {X} (t : Q) (s : ThreadProgressCallback X) : Prop :=
  _start_time s = t.

Definition frozen_at {X} (p : Q) (s : ThreadProgressCallback X) : Prop :=
  _finished s = true /\ _progress s = p.

(** What the path properties of a handle read, in the order the classes
    declare them. *)
Definition train_paths {Metric Env} (m : Machine Env (TrainFields Metric Env))
  : outcome (option string) * outcome (option string) *
    outcome (option string) * outcome (option string) :=
  (fst (best_ckpt_file m), fst (last_ckpt_file m),
   fst (result_dir m), fst (metric_file m)).

Definition inference_paths {Env} (m : Machine Env InferenceFields)
  : outcome (option string) * outcome (option string) :=
  (fst (inference_dir m), fst (draw_dir m)).

(** The metric function a training handle was given. *)
Definition polls {Metric Env} (f : metric_func Metric Env)
  (s : ThreadProgressCallback (TrainFields Metric Env)) : Prop :=
  _get_metric_func (subclass_fields s) = f.

(** An [update] argument within the documented range [0 ~ total_steps]. *)
Definition in_range (total_steps step : Z) : Prop :=
  (0 <= step <= total_steps)%Z.

(** An event other than a call of [force_finish]. *)
Definition not_force_finish {Env S} (e : event Env S) : Prop :=
  e <> Call (inherited call_force_finish).

(** An event other than a call of [register_thread]. *)
Definition not_register_thread {Env S} (e : event Env S) : Prop :=
  forall t, e <> Call (inherited (call_register_thread t)).

(** * Properties *)

Unset Implicit Arguments.

(** ** Arithmetic of the progress fraction *)

Lemma inject_Z_pos (b : Z) : (0 < b)%Z -> 0 < inject_Z b.
Proof.
  intros Hb. change 0 with (inject_Z 0). rewrite <- Zlt_Qlt. exact Hb.
Qed.

Lemma quotient_ge_1 (a b : Z) : (0 < b)%Z -> (b <= a)%Z -> 1 <= quotient a b.
Proof.
  intros Hb Hab. unfold quotient.
  pose proof (inject_Z_pos b Hb) as Hbq.
  apply Qle_shift_div_l; [exact Hbq|].
  rewrite Qmult_1_l, <- Zle_Qle. exact Hab.
Qed.

Lemma quotient_gt_1 (a b : Z) : (0 < b)%Z -> (b < a)%Z -> 1 < quotient a b.
Proof.
  intros Hb Hab. unfold quotient.
  pose proof (inject_Z_pos b Hb) as Hbq.
  apply Qlt_shift_div_l; [exact Hbq|].
  rewrite Qmult_1_l, <- Zlt_Qlt. exact Hab.
Qed.

Lemma quotient_self (b : Z) : b <> 0%Z -> quotient b b == 1.
Proof.
  intros Hb. unfold quotient. field.
  intros H. apply Hb. apply inject_Z_injective. exact H.
Qed.

Lemma quotient_twice (b : Z) : b <> 0%Z -> quotient (2 * b) b == 2.
Proof.
  intros Hb. unfold quotient. rewrite inject_Z_mult. field.
  intros H. apply Hb. apply inject_Z_injective. exact H.
Qed.

Lemma quotient_lt_1 (a b : Z) : (0 < b)%Z -> (a < b)%Z -> quotient a b < 1.
Proof.
  intros Hb Hab. unfold quotient.
  pose proof (inject_Z_pos b Hb) as Hbq.
  apply Qlt_shift_div_r; [exact Hbq|].
  rewrite Qmult_1_l, <- Zlt_Qlt. exact Hab.
Qed.

Lemma quotient_nonneg (a b : Z) : (0 < b)%Z -> (0 <= a)%Z -> 0 <= quotient a b.
Proof.
  intros Hb Ha. unfold quotient.
  pose proof (inject_Z_pos b Hb) as Hbq.
  apply Qle_shift_div_l; [exact Hbq|].
  rewrite Qmult_0_l. change 0 with (inject_Z 0). rewrite <- Zle_Qle. exact Ha.
Qed.

Lemma quotient_mono (a a' b : Z) :
  (0 < b)%Z -> (a <= a')%Z -> quotient a b <= quotient a' b.
Proof.
  intros Hb Ha. unfold quotient, Qdiv.
  apply Qmult_le_compat_r.
  - rewrite <- Zle_Qle. exact Ha.
  - apply Qlt_le_weak, Qinv_lt_0_compat, inject_Z_pos. exact Hb.
Qed.

(** ** What [update] does, case by case *)

Lemma update_when_finished {Env X} (m : Machine Env X) (step : Z) :
  _finished (self m) = true ->
  update step m =
  (Returned tt,
   mkMachine (self m) (warned "Callback has already ended" (world m))).
Proof.
  intros Hfin. unfold_methods. rewrite Hfin. reflexivity.
Qed.

Lemma update_when_running {Env X} (m : Machine Env X) (step : Z) :
  _finished (self m) = false ->
  _total_steps (self m) <> 0%Z ->
  update step m = (Returned tt, mkMachine (updated step (self m)) (world m)).
Proof.
  intros Hfin Htotal. apply Z.eqb_neq in Htotal.
  unfold_methods. rewrite Hfin.
  destruct (step >=? _total_steps (self m))%Z eqn:Hge; simpl;
    rewrite Htotal; simpl; unfold updated; rewrite Hge, ?Hfin; reflexivity.
Qed.

Lemma update_divides_by_zero {Env X} (m : Machine Env X) (step : Z) :
  _finished (self m) = false ->
  _total_steps (self m) = 0%Z ->
  update step m =
  (Raised ZeroDivisionError, mkMachine (half_updated step (self m)) (world m)).
Proof.
  intros Hfin Htotal.
  unfold_methods. rewrite Hfin, Htotal.
  destruct (step >=? 0)%Z eqn:Hge; simpl; unfold half_updated;
    rewrite Htotal, Hge, ?Hfin; try reflexivity.
  destruct m as [[t th f p st x] w]; simpl in *; subst; reflexivity.
Qed.

(** ** update *)

(** C1, as amended.  On a handle with [total_steps > 0] that is not finished,
    [update(step)] with [step >= total_steps] sets [finished], and nothing
    clamps the progress: when [step / total_steps] is within the range of a
    float the call returns and stores the quotient as it is, so that
    [get_progress()], in a class that keeps the base one, afterwards returns
    [step / total_steps], which is at least 1: it is 1 at
    [step = total_steps] and 2 at [step = 2 * total_steps]. *)
Theorem update_reaching_total_finishes_unclamped
  {Env X} (m : Machine Env X) (step : Z) :
  (0 < _total_steps (self m))%Z ->
  _finished (self m) = false ->
  (_total_steps (self m) <= step)%Z ->
  let total_steps := _total_steps (self m) in
  let m' := snd (update step m) in
  fst (is_finished m') = Returned true /\
  (float_range step total_steps ->
   fst (update step m) = Returned tt /\
   _progress (self m') = quotient step total_steps /\
   (forall S (C : class Env X S),
      plain C ->
      fst (class_get_progress C m') = Returned (quotient step total_steps)) /\
   1 <= quotient step total_steps /\
   (step = total_steps -> quotient step total_steps == 1) /\
   (step = (2 * total_steps)%Z -> quotient step total_steps == 2)).
Proof.
  intros Hpos Hfin Hge total_steps m'.
  subst m'. rewrite update_when_running by (assumption || lia).
  simpl. unfold_methods.
  assert (Hgeb : (step >=? _total_steps (self m))%Z = true)
    by (apply Z.geb_le; exact Hge).
  rewrite Hgeb. split; [reflexivity|]. intros _. repeat split.
  - intros S C (eff & Hgp & _). rewrite Hgp. reflexivity.
  - apply quotient_ge_1; assumption.
  - intros ->. apply quotient_self. subst total_steps. lia.
  - intros ->. apply (quotient_twice total_steps). subst total_steps. lia.
Qed.

(** [update(4)] on a new handle with [total_steps = 2]. *)
Lemma update_reaching_total_finishes_unclamped_witness :
  (0 < 2)%Z /\
  float_range 4 2 /\
  fst (is_finished (snd (update 4 (new_handle 2)))) = Returned true /\
  fst (get_progress (snd (update 4 (new_handle 2)))) = Returned (quotient 4 2) /\
  quotient 4 2 == 2.
Proof.
  assert (H2 : (0 < _total_steps (self (new_handle 2)))%Z) by (simpl; lia).
  assert (H4 : (_total_steps (self (new_handle 2)) <= 4)%Z) by (simpl; lia).
  assert (Hr : float_range 4 2) by (vm_compute; reflexivity).
  destruct (update_reaching_total_finishes_unclamped (new_handle 2) 4
              H2 eq_refl H4) as (Hf & Hrest).
  destruct (Hrest Hr) as (_ & _ & Hp & _ & _ & Htwice).
  split; [lia|]. split; [exact Hr|]. split; [exact Hf|]. split.
  - apply (Hp Empty_set (ThreadProgressCallback_class unit)).
    exists (fun _ s => s). repeat split. intros [].
  - apply Htwice. reflexivity.
Defined.

(** C1, as stated, fails: on a new handle with [total_steps = 2], which is
    not finished, [update(4)] has [step >= total_steps], and [get_progress()]
    afterwards returns 2, which is neither at most 1 nor equal to 1. *)
Lemma update_past_total_is_not_clamped :
  (0 < _total_steps (self (new_handle 2)))%Z /\
  _finished (self (new_handle 2)) = false /\
  (_total_steps (self (new_handle 2)) < 4)%Z /\
  fst (get_progress (snd (update 4 (new_handle 2)))) = Returned (4 / 2) /\
  ~ 4 / 2 <= 1 /\
  ~ 4 / 2 == 1.
Proof.
  simpl. repeat split; try lia.
  - intros H. apply H. reflexivity.
  - intros H. discriminate H.
Qed.

(** C3.  Nothing guards against [total_steps = 0]: on a handle constructed
    with [total_steps = 0], and on any handle with [total_steps = 0] that is
    not finished, [update(step)] with [step >= 0] evaluates
    [step / total_steps] with divisor 0 and raises [ZeroDivisionError]
    instead of returning.  The call has set [finished] by then. *)
Theorem update_with_zero_total_steps_divides_by_zero (step : Z) :
  (0 <= step)%Z ->
  (forall Env (w w' : World Env),
     let m := mkMachine (ThreadProgressCallback_init 0 w) w' in
     fst (update step m) = Raised ZeroDivisionError /\
     _finished (self (snd (update step m))) = true) /\
  (forall Env X (m : Machine Env X),
     _total_steps (self m) = 0%Z ->
     _finished (self m) = false ->
     fst (update step m) = Raised ZeroDivisionError /\
     _finished (self (snd (update step m))) = true).
Proof.
  intros Hstep.
  assert (Hgeb : (step >=? 0)%Z = true) by (apply Z.geb_le; exact Hstep).
  split.
  - intros Env w w' m. subst m.
    rewrite update_divides_by_zero by reflexivity. simpl. auto.
  - intros Env X m Htotal Hfin.
    rewrite update_divides_by_zero by assumption. simpl.
    rewrite Htotal. auto.
Qed.

(** [update(3)] on a new handle with [total_steps = 0]. *)
Lemma update_with_zero_total_steps_divides_by_zero_witness :
  (0 <= 3)%Z /\
  fst (update 3 (new_handle 0)) = Raised ZeroDivisionError.
Proof.
  assert (H3 : (0 <= 3)%Z) by lia.
  split; [exact H3|].
  apply (proj1 (update_with_zero_total_steps_divides_by_zero 3 H3)
           unit world0 world0).
Defined.

(** C4.  On a handle whose [finished] flag is set, [update(step)] with any
    [step] gives the warning to [warnings.warn] and returns; the object is
    left as it was, so [finished] is still set and the stored progress is
    unchanged. *)
Theorem update_after_finished_only_warns
  {Env X} (m : Machine Env X) (step : Z) :
  _finished (self m) = true ->
  let m' := snd (update step m) in
  fst (update step m) = Returned tt /\
  warnings (world m') = "Callback has already ended"%string :: warnings (world m) /\
  _finished (self m') = true /\
  _progress (self m') = _progress (self m) /\
  self m' = self m.
Proof.
  intros Hfin m'. subst m'.
  rewrite update_when_finished by exact Hfin. simpl. auto.
Qed.

(** [update(1)] after [force_finish()] on a new handle. *)
Lemma update_after_finished_only_warns_witness :
  let m := snd (force_finish (new_handle 5)) in
  _finished (self m) = true /\
  warnings (world (snd (update 1 m))) = ["Callback has already ended"%string] /\
  _finished (self (snd (update 1 m))) = true /\
  _progress (self (snd (update 1 m))) = 0.
Proof.
  destruct (update_after_finished_only_warns
              (snd (force_finish (new_handle 5))) 1 eq_refl)
    as (_ & Hw & Hf & Hp & _).
  split; [reflexivity|]. split; [exact Hw|]. split; [exact Hf | exact Hp].
Defined.

(** C6.  For [total_steps > 0] and [0 <= step < total_steps], [update(step)]
    on a handle that is not finished returns, and afterwards the base class's
    [get_progress()] returns [step / total_steps] and [is_finished()] returns
    false. *)
Theorem update_below_total_sets_progress
  {Env X} (m : Machine Env X) (step : Z) :
  (0 < _total_steps (self m))%Z ->
  (0 <= step < _total_steps (self m))%Z ->
  _finished (self m) = false ->
  let m' := snd (update step m) in
  fst (update step m) = Returned tt /\
  fst (get_progress m') = Returned (quotient step (_total_steps (self m))) /\
  fst (is_finished m') = Returned false.
Proof.
  intros Hpos Hstep Hfin m'. subst m'.
  rewrite update_when_running by (assumption || lia).
  simpl. unfold_methods.
  assert (Hgeb : (step >=? _total_steps (self m))%Z = false).
  { destruct (step >=? _total_steps (self m))%Z eqn:E; [|reflexivity].
    apply Z.geb_le in E. lia. }
  rewrite Hgeb. auto.
Qed.

(** [update(3)] on a new handle with [total_steps = 10]. *)
Lemma update_below_total_sets_progress_witness :
  (0 <= 3 < 10)%Z /\
  fst (get_progress (snd (update 3 (new_handle 10)))) = Returned (quotient 3 10) /\
  quotient 3 10 == 3 # 10 /\
  fst (is_finished (snd (update 3 (new_handle 10)))) = Returned false.
Proof.
  assert (H10 : (0 < _total_steps (self (new_handle 10)))%Z) by (simpl; lia).
  assert (H3 : (0 <= 3 < _total_steps (self (new_handle 10)))%Z)
    by (simpl; lia).
  destruct (update_below_total_sets_progress (new_handle 10) 3 H10 H3 eq_refl)
    as (_ & Hp & Hf).
  split; [lia|]. split; [exact Hp|]. split; [reflexivity | exact Hf].
Defined.

(** ** force_finish and get_remaining_time *)

(** C8.  In every state of every handle, whatever its progress and whether
    finished or not, [force_finish()] returns and [is_finished()] afterwards
    returns true. *)
Theorem force_finish_makes_is_finished_true {Env X} (m : Machine Env X) :
  fst (force_finish m) = Returned tt /\
  fst (is_finished (snd (force_finish m))) = Returned true.
Proof.
  unfold_methods. auto.
Qed.




(** ** Invariants along call sequences *)

Section Preservation.

Context {Env X : Type}.
Variable P : ThreadProgressCallback X -> Prop.

Lemma keeps_self_preserves {A} (c : M Env X A) :
  keeps_self c -> preserves P c.
Proof.
  intros Hc m Hm. rewrite Hc. exact Hm.
Qed.

Lemma preserves_ret {A} (a : A) : preserves P (@ret Env X A a).
Proof. intros m Hm. exact Hm. Qed.

Lemma preserves_raise {A} (e : exn) : preserves P (@raise Env X A e).
Proof. intros m Hm. exact Hm. Qed.

Lemma preserves_bind {A B} (c : M Env X A) (k : A -> M Env X B) :
  preserves P c -> (forall a, preserves P (k a)) -> preserves P (bind c k).
Proof.
  intros Hc Hk m Hm. unfold bind.
  specialize (Hc m Hm). destruct (c m) as [[a|e] m1]; simpl in *.
  - apply Hk. exact Hc.
  - exact Hc.
Qed.

Lemma preserves_attr {A} (f : ThreadProgressCallback X -> A) :
  preserves P (@attr Env X A f).
Proof. intros m Hm. exact Hm. Qed.

Lemma preserves_assign (f : ThreadProgressCallback X -> ThreadProgressCallback X) :
  (forall s, P s -> P (f s)) -> preserves P (@assign Env X f).
Proof. intros Hf m Hm. simpl. apply Hf. exact Hm. Qed.

Lemma preserves_time_time : preserves P (@time_time Env X).
Proof. intros m Hm. exact Hm. Qed.

Lemma preserves_warnings_warn (msg : string) :
  preserves P (@warnings_warn Env X msg).
Proof. intros m Hm. exact Hm. Qed.

Lemma preserves_Thread_start (t : Thread) : preserves P (@Thread_start Env X t).
Proof.
  intros m Hm. unfold Thread_start.
  destruct (threads (world m) t); exact Hm.
Qed.

Lemma preserves_Thread_join (t : Thread) : preserves P (@Thread_join Env X t).
Proof.
  intros m Hm. unfold Thread_join.
  destruct (threads (world m) t); exact Hm.
Qed.

Lemma preserves_true_div (a b : Z) : preserves P (@true_div Env X a b).
Proof.
  unfold true_div. destruct (b =? 0)%Z;
    [apply preserves_raise | apply preserves_ret].
Qed.

Lemma preserves_discard {A} (c : M Env X A) :
  preserves P c -> preserves P (discard c).
Proof.
  intros Hc. unfold discard. apply preserves_bind; [exact Hc|].
  intros a. apply preserves_ret.
Qed.

(** An invariant of every call is an invariant of every run. *)
Lemma run_preserves {S} (C : class Env X S) :
  (forall c, preserves P (invoke C c)) ->
  forall es m, P (self m) -> P (self (run C es m)).
Proof.
  intros Hcall es. unfold run.
  induction es as [|e es IH]; intros m Hm; simpl.
  - exact Hm.
  - apply IH. destruct e as [c|f]; simpl.
    + apply Hcall. exact Hm.
    + exact Hm.
Qed.

End Preservation.

Create HintDb callback.

#[local] Hint Resolve preserves_ret preserves_raise preserves_attr
  preserves_time_time preserves_warnings_warn preserves_Thread_start
  preserves_Thread_join preserves_true_div preserves_discard : callback.

Ltac preserves_step :=
  first
    [ apply preserves_bind; [|intro]
    | apply preserves_discard
    | solve [auto with callback]
    | apply preserves_assign;
      let s := fresh "s" in
      let Hs := fresh "Hs" in
      intros s Hs; unfold is_done, has_total in *; simpl;
      solve [exact Hs | reflexivity]
    | match goal with
      | |- preserves _ (if ?b then _ else _) => destruct b
      | |- preserves _ (match ?o with Some _ => _ | None => _ end) =>
          destruct o
      end ].

Ltac solve_preserves := repeat preserves_step.

Section InheritedMethods.

Context {Env X : Type}.

(** No inherited method clears [_finished]: it is only ever assigned [True]. *)
Lemma inherited_preserve_is_done (gp : M Env X Q) (c : method) :
  preserves is_done gp -> preserves is_done (invoke_inherited gp c).
Proof.
  intros Hgp. destruct c; simpl;
    unfold is_finished, get_remaining_time, update, force_finish,
      register_thread, start, join, set_finished, set_progress, set_thread;
    solve_preserves.
Qed.

(** No inherited method assigns [_total_steps]. *)
Lemma inherited_preserve_has_total (n : Z) (gp : M Env X Q) (c : method) :
  preserves (has_total n) gp -> preserves (has_total n) (invoke_inherited gp c).
Proof.
  intros Hgp. destruct c; simpl;
    unfold is_finished, get_remaining_time, update, force_finish,
      register_thread, start, join, set_finished, set_progress, set_thread;
    solve_preserves.
Qed.

End InheritedMethods.

Lemma preserves_call_get_metric_func {Metric Env}
  (P : ThreadProgressCallback (TrainFields Metric Env) -> Prop) :
  preserves P (@call_get_metric_func Metric Env).
Proof.
  intros m Hm. unfold call_get_metric_func.
  destruct (_get_metric_func (subclass_fields (self m)) (env (world m))).
  exact Hm.
Qed.

#[local] Hint Resolve preserves_call_get_metric_func : callback.

Ltac unfold_class_methods :=
  unfold TrainCallback_get_progress, get_metrics, get_progress,
    best_ckpt_file, set_best_ckpt_file, last_ckpt_file, set_last_ckpt_file,
    result_dir, set_result_dir, metric_file, set_metric_file,
    inference_dir, set_inference_dir, draw_dir, set_draw_dir,
    export_file, set_export_file, field,
    is_finished, get_remaining_time, update, force_finish,
    register_thread, start, join,
    set_finished, set_progress, set_thread, set_subclass_fields.

Lemma TrainCallback_get_progress_preserves_is_done {Metric Env} :
  preserves is_done (@TrainCallback_get_progress Metric Env).
Proof. unfold_class_methods. solve_preserves. Qed.

Lemma TrainCallback_get_progress_preserves_has_total {Metric Env} (n : Z) :
  preserves (has_total n) (@TrainCallback_get_progress Metric Env).
Proof. unfold_class_methods. solve_preserves. Qed.

Lemma get_progress_keeps_self {Env X} : keeps_self (@get_progress Env X).
Proof. intros m. reflexivity. Qed.

Lemma ThreadProgressCallback_calls_preserve {Env} (n : Z) (c : call Empty_set) :
  preserves is_done (invoke (ThreadProgressCallback_class Env) c) /\
  preserves (has_total n) (invoke (ThreadProgressCallback_class Env) c).
Proof.
  destruct c as [c|[]]; simpl; split.
  - apply inherited_preserve_is_done, keeps_self_preserves,
      get_progress_keeps_self.
  - apply inherited_preserve_has_total, keeps_self_preserves,
      get_progress_keeps_self.
Qed.

Lemma TrainCallback_calls_preserve {Metric Env} (n : Z)
  (c : call train_method) :
  preserves is_done (invoke (TrainCallback_class Metric Env) c) /\
  preserves (has_total n) (invoke (TrainCallback_class Metric Env) c).
Proof.
  destruct c as [c|c]; simpl; split.
  - apply inherited_preserve_is_done,
      TrainCallback_get_progress_preserves_is_done.
  - apply inherited_preserve_has_total,
      TrainCallback_get_progress_preserves_has_total.
  - destruct c; unfold_class_methods; solve_preserves.
  - destruct c; unfold_class_methods; solve_preserves.
Qed.

Lemma InferenceCallback_calls_preserve {Env} (n : Z)
  (c : call inference_method) :
  preserves is_done (invoke (InferenceCallback_class Env) c) /\
  preserves (has_total n) (invoke (InferenceCallback_class Env) c).
Proof.
  destruct c as [c|c]; simpl; split.
  - apply inherited_preserve_is_done, keeps_self_preserves,
      get_progress_keeps_self.
  - apply inherited_preserve_has_total, keeps_self_preserves,
      get_progress_keeps_self.
  - destruct c; unfold_class_methods; solve_preserves.
  - destruct c; unfold_class_methods; solve_preserves.
Qed.

Lemma ExportCallback_calls_preserve {Env} (n : Z) (c : call export_method) :
  preserves is_done (invoke (ExportCallback_class Env) c) /\
  preserves (has_total n) (invoke (ExportCallback_class Env) c).
Proof.
  destruct c as [c|c]; simpl; split.
  - apply inherited_preserve_is_done, keeps_self_preserves,
      get_progress_keeps_self.
  - apply inherited_preserve_has_total, keeps_self_preserves,
      get_progress_keeps_self.
  - destruct c; unfold_class_methods; solve_preserves.
  - destruct c; unfold_class_methods; solve_preserves.
Qed.

(** C5.  The [finished] flag only goes from false to true.  For a handle of
    any of the four classes and any sequence of calls on it ([update],
    [get_progress], [is_finished], [get_remaining_time], [force_finish],
    [register_thread], [start], [join], the path properties and their
    setters, [get_metrics]), returning or raising, with any changes of the
    outside world in between: once [is_finished()] returns true it returns
    true after the whole sequence. *)
Theorem finished_stays_true :
  (forall Env es (m : Machine Env unit),
     fst (is_finished m) = Returned true ->
     fst (is_finished (run (ThreadProgressCallback_class Env) es m)) =
       Returned true) /\
  (forall Metric Env es (m : Machine Env (TrainFields Metric Env)),
     fst (is_finished m) = Returned true ->
     fst (is_finished (run (TrainCallback_class Metric Env) es m)) =
       Returned true) /\
  (forall Env es (m : Machine Env InferenceFields),
     fst (is_finished m) = Returned true ->
     fst (is_finished (run (InferenceCallback_class Env) es m)) =
       Returned true) /\
  (forall Env es (m : Machine Env ExportFields),
     fst (is_finished m) = Returned true ->
     fst (is_finished (run (ExportCallback_class Env) es m)) =
       Returned true).
Proof.
  assert (Hrun : forall Env X S (C : class Env X S),
             (forall c, preserves is_done (invoke C c)) ->
             forall es (m : Machine Env X),
               fst (is_finished m) = Returned true ->
               fst (is_finished (run C es m)) = Returned true).
  { intros Env X S C HC es m Hm. unfold is_finished, attr in *. simpl in *.
    f_equal. apply (run_preserves is_done C HC).
    unfold is_done. congruence. }
  repeat split; intros; apply Hrun; trivial; intros c.
  - apply (ThreadProgressCallback_calls_preserve 0 c).
  - apply (TrainCallback_calls_preserve 0 c).
  - apply (InferenceCallback_calls_preserve 0 c).
  - apply (ExportCallback_calls_preserve 0 c).
Qed.

(** A handle that [update(3)] has finished, then called further: a late
    [update], [start] and [join] without a thread, and [get_progress]. *)
Lemma finished_stays_true_witness :
  fst (is_finished (snd (update 3 (new_handle 3)))) = Returned true /\
  fst (is_finished
         (run (ThreadProgressCallback_class unit)
            [Call (inherited (call_update 1)); Call (inherited call_start);
             Call (inherited call_join); Call (inherited call_get_progress)]
            (snd (update 3 (new_handle 3))))) = Returned true.
Proof.
  split; [reflexivity|].
  apply (proj1 finished_stays_true). reflexivity.
Defined.

(** C9.  [total_steps] is fixed at construction.  Each constructor stores its
    argument in [_total_steps], and for a handle of any of the four classes
    no sequence of calls ([update], [get_progress], [is_finished],
    [get_remaining_time], [force_finish], [register_thread], [start],
    [join], the path properties and their setters, [get_metrics]), returning
    or raising, changes it. *)
Theorem total_steps_never_changes :
  (forall Env n (w : World Env),
     _total_steps (ThreadProgressCallback_init n w) = n) /\
  (forall Metric Env n (f : metric_func Metric Env) (w : World Env),
     _total_steps (TrainCallback_init n f w) = n) /\
  (forall Env n (w : World Env),
     _total_steps (InferenceCallback_init n w) = n) /\
  (forall Env n (w : World Env),
     _total_steps (ExportCallback_init n w) = n) /\
  (forall Env es (m : Machine Env unit),
     _total_steps (self (run (ThreadProgressCallback_class Env) es m)) =
     _total_steps (self m)) /\
  (forall Metric Env es (m : Machine Env (TrainFields Metric Env)),
     _total_steps (self (run (TrainCallback_class Metric Env) es m)) =
     _total_steps (self m)) /\
  (forall Env es (m : Machine Env InferenceFields),
     _total_steps (self (run (InferenceCallback_class Env) es m)) =
     _total_steps (self m)) /\
  (forall Env es (m : Machine Env ExportFields),
     _total_steps (self (run (ExportCallback_class Env) es m)) =
     _total_steps (self m)).
Proof.
  assert (Hrun : forall Env X S (C : class Env X S),
             (forall n c, preserves (has_total n) (invoke C c)) ->
             forall es (m : Machine Env X),
               _total_steps (self (run C es m)) = _total_steps (self m)).
  { intros Env X S C HC es m.
    apply (run_preserves (has_total (_total_steps (self m))) C (HC _)).
    reflexivity. }
  repeat split; intros; try apply Hrun; intros k c.
  - apply (ThreadProgressCallback_calls_preserve k c).
  - apply (TrainCallback_calls_preserve k c).
  - apply (InferenceCallback_calls_preserve k c).
  - apply (ExportCallback_calls_preserve k c).
Qed.

(** ** TrainCallback.get_progress, case by case *)

Section TrainGetProgress.

Context {Metric Env : Type}.
Variable m : Machine Env (TrainFields Metric Env).

Lemma len_nonempty (metrics : list Metric) :
  metrics <> [] -> (len metrics =? 0)%Z = false.
Proof.
  intros Hne. apply Z.eqb_neq. unfold len.
  destruct metrics; [congruence|]. simpl List.length. lia.
Qed.

Lemma TrainCallback_get_progress_raised (x : exn) (e : Env) :
  _get_metric_func (subclass_fields (self m)) (env (world m)) = (Raised x, e) ->
  TrainCallback_get_progress m =
  (Raised x, mkMachine (self m) (with_env e (world m))).
Proof.
  intros Hf. unfold TrainCallback_get_progress, call_get_metric_func, bind.
  rewrite Hf. reflexivity.
Qed.

Lemma TrainCallback_get_progress_empty (e : Env) :
  _get_metric_func (subclass_fields (self m)) (env (world m)) =
    (Returned [], e) ->
  TrainCallback_get_progress m =
  (Returned 0, mkMachine (self m) (with_env e (world m))).
Proof.
  intros Hf. unfold TrainCallback_get_progress, call_get_metric_func, bind.
  rewrite Hf. reflexivity.
Qed.

Lemma TrainCallback_get_progress_nonempty (metrics : list Metric) (e : Env) :
  _get_metric_func (subclass_fields (self m)) (env (world m)) =
    (Returned metrics, e) ->
  metrics <> [] ->
  _total_steps (self m) <> 0%Z ->
  TrainCallback_get_progress m =
  (Returned (quotient (len metrics) (_total_steps (self m))),
   mkMachine (recounted (len metrics) (self m))
     (if _finished (self m)
      then warned "Callback has already ended" (with_env e (world m))
      else with_env e (world m))).
Proof.
  intros Hf Hne Htotal.
  unfold TrainCallback_get_progress, call_get_metric_func, bind at 1.
  rewrite Hf, (len_nonempty metrics Hne). unfold bind at 1.
  set (m1 := mkMachine (self m) _).
  pose proof (proj2 (Z.eqb_neq _ _) Htotal) as Hz.
  destruct (_finished (self m)) eqn:Hfin.
  - rewrite (update_when_finished m1) by exact Hfin.
    unfold_methods. rewrite Hz. simpl.
    unfold recounted. rewrite Hfin. reflexivity.
  - rewrite (update_when_running m1) by (subst m1; auto).
    unfold_methods. rewrite Hz. simpl.
    unfold recounted. rewrite Hfin. reflexivity.
Qed.

(** With [total_steps = 0] and a non-empty metric list the call raises: in
    [update] when the handle is not finished, in its own division when it
    is. *)
Lemma TrainCallback_get_progress_zero_total (metrics : list Metric) (e : Env) :
  _get_metric_func (subclass_fields (self m)) (env (world m)) =
    (Returned metrics, e) ->
  metrics <> [] ->
  _total_steps (self m) = 0%Z ->
  exists m',
    TrainCallback_get_progress m = (Raised ZeroDivisionError, m') /\
    _progress (self m') = _progress (self m).
Proof.
  intros Hf Hne Htotal.
  unfold TrainCallback_get_progress, call_get_metric_func, bind at 1.
  rewrite Hf, (len_nonempty metrics Hne). unfold bind at 1.
  set (m1 := mkMachine (self m) _).
  destruct (_finished (self m)) eqn:Hfin.
  - rewrite (update_when_finished m1) by exact Hfin.
    unfold_methods. rewrite Htotal. simpl. eexists. split; reflexivity.
  - rewrite (update_divides_by_zero m1) by (subst m1; auto).
    eexists. split; reflexivity.
Qed.

End TrainGetProgress.

(** C10, as amended.  [TrainCallback.get_progress()], when the metric
    function returns an empty list, returns 0 and leaves the object (stored
    progress, [finished], [total_steps] and all else) as it was.  When it
    returns a non-empty list of length [n] and [total_steps] is not 0, it
    stores and returns [n / total_steps] and sets [finished] if
    [n >= total_steps], leaving [finished] as it was otherwise; the quotient
    is stored whether or not [finished] was set before, so the stored
    progress of a finished training handle changes whenever
    [n / total_steps] differs from it. *)
Theorem TrainCallback_get_progress_spec {Metric Env}
  (m : Machine Env (TrainFields Metric Env)) (metrics : list Metric) (e : Env) :
  _get_metric_func (subclass_fields (self m)) (env (world m)) =
    (Returned metrics, e) ->
  let n := len metrics in
  let total_steps := _total_steps (self m) in
  let m' := snd (TrainCallback_get_progress m) in
  (metrics = [] ->
     fst (TrainCallback_get_progress m) = Returned 0 /\
     self m' = self m) /\
  (metrics <> [] -> total_steps <> 0%Z ->
     fst (TrainCallback_get_progress m) = Returned (quotient n total_steps) /\
     _progress (self m') = quotient n total_steps /\
     ((total_steps <= n)%Z -> _finished (self m') = true) /\
     ((n < total_steps)%Z -> _finished (self m') = _finished (self m)) /\
     _total_steps (self m') = total_steps) /\
  (metrics <> [] -> total_steps <> 0%Z ->
     _finished (self m) = true ->
     ~ quotient n total_steps == _progress (self m) ->
     _finished (self m') = true /\
     ~ _progress (self m') == _progress (self m)).
Proof.
  intros Hf n total_steps m'. subst m'. split; [|split].
  - intros ->. rewrite (TrainCallback_get_progress_empty m e Hf). auto.
  - intros Hne Htotal.
    rewrite (TrainCallback_get_progress_nonempty m metrics e Hf Hne Htotal).
    simpl. fold n total_steps. repeat split.
    + intros Hge. apply Z.geb_le in Hge. rewrite Hge. apply orb_true_r.
    + intros Hlt.
      assert (Hgeb : (n >=? total_steps)%Z = false).
      { destruct (n >=? total_steps)%Z eqn:E; [|reflexivity].
        apply Z.geb_le in E. lia. }
      rewrite Hgeb. apply orb_false_r.
  - intros Hne Htotal Hfin Hdiff.
    rewrite (TrainCallback_get_progress_nonempty m metrics e Hf Hne Htotal).
    simpl. rewrite Hfin. split; [reflexivity | exact Hdiff].
Qed.

(** A training handle with [total_steps = 4]: polled before the first epoch,
    and polled with two epochs written after [force_finish()]. *)
Lemma TrainCallback_get_progress_spec_witness :
  let m0 := new_train_handle 4 0 in
  let m2 := snd (force_finish (new_train_handle 4 2)) in
  (fst (TrainCallback_get_progress m0) = Returned 0 /\
   self (snd (TrainCallback_get_progress m0)) = self m0) /\
  (_finished (self m2) = true /\ _progress (self m2) = 0 /\
   fst (TrainCallback_get_progress m2) = Returned (quotient 2 4) /\
   _finished (self (snd (TrainCallback_get_progress m2))) = true /\
   ~ _progress (self (snd (TrainCallback_get_progress m2))) == 0).
Proof.
  intros m0 m2. split.
  - apply (TrainCallback_get_progress_spec m0 [] 0%nat eq_refl). reflexivity.
  - destruct (TrainCallback_get_progress_spec m2 [tt; tt] 2%nat eq_refl)
      as (_ & Hstore & Hlate).
    assert (Hne : [tt; tt] <> @nil unit) by discriminate.
    assert (Htotal : _total_steps (self m2) <> 0%Z) by (simpl; lia).
    destruct (Hstore Hne Htotal) as (Hret & _).
    assert (Hdiff : ~ quotient (len [tt; tt]) (_total_steps (self m2)) ==
                      _progress (self m2)) by (intros H; discriminate H).
    destruct (Hlate Hne Htotal eq_refl Hdiff) as (Hfin & Hchg).
    repeat split; first [exact Hret | exact Hfin | exact Hchg].
Defined.

(** C10, as stated, fails when [total_steps] is 0: on a training handle
    with [total_steps = 0] whose metric function returns two records,
    [get_progress()] raises [ZeroDivisionError] and neither returns nor
    stores a quotient; the stored progress is still 0. *)
Lemma TrainCallback_get_progress_fails_with_zero_total_steps :
  let m := new_train_handle 0 2 in
  _get_metric_func (subclass_fields (self m)) (env (world m)) =
    (Returned [tt; tt], 2%nat) /\
  fst (TrainCallback_get_progress m) = Raised ZeroDivisionError /\
  _progress (self (snd (TrainCallback_get_progress m))) = 0.
Proof.
  simpl. repeat split.
Qed.

(** ** Progress over time *)

(** C2, as amended.  Progress is not monotonic by construction: [update]
    stores [step / total_steps] whatever was stored before.  For every handle
    in every state, the stored progress after an operation is greater than or
    equal to its value before, unless the operation is [update(step)] on a
    handle that is not finished, with [total_steps] not 0 and
    [step / total_steps] below the stored progress, or, in the training
    variant, [get_progress()] when the metric function returns [n > 0]
    records, with [total_steps] not 0 and [n / total_steps] below the stored
    progress.  The base [get_progress()] and [force_finish()] leave the
    stored progress as it is. *)
Theorem progress_drops_only_when_the_count_goes_back :
  (forall Env X (m : Machine Env X) (step : Z),
     ~ (_finished (self m) = false /\
        _total_steps (self m) <> 0%Z /\
        quotient step (_total_steps (self m)) < _progress (self m)) ->
     _progress (self m) <= _progress (self (snd (update step m)))) /\
  (forall Env X S (C : class Env X S) (m : Machine Env X),
     plain C ->
     _progress (self (snd (class_get_progress C m))) = _progress (self m)) /\
  (forall Env X (m : Machine Env X),
     _progress (self (snd (force_finish m))) = _progress (self m)) /\
  (forall Metric Env (m : Machine Env (TrainFields Metric Env)),
     ~ (exists metrics e,
          _get_metric_func (subclass_fields (self m)) (env (world m)) =
            (Returned metrics, e) /\
          metrics <> [] /\
          _total_steps (self m) <> 0%Z /\
          quotient (len metrics) (_total_steps (self m)) <
            _progress (self m)) ->
     _progress (self m) <=
       _progress (self (snd (TrainCallback_get_progress m)))).
Proof.
  split; [|split; [|split]].
  - intros Env X m step Hn.
    destruct (_finished (self m)) eqn:Hfin.
    + rewrite update_when_finished by exact Hfin. apply Qle_refl.
    + destruct (Z.eq_dec (_total_steps (self m)) 0) as [Hz|Hnz].
      * rewrite update_divides_by_zero by assumption. apply Qle_refl.
      * rewrite update_when_running by assumption. simpl.
        apply Qnot_lt_le. intros Hlt. apply Hn. auto.
  - intros Env X S C m (eff & Hgp & _). rewrite Hgp. reflexivity.
  - intros Env X m. reflexivity.
  - intros Metric Env m Hn.
    destruct (_get_metric_func (subclass_fields (self m)) (env (world m)))
      as [[metrics|x] e] eqn:Hf.
    + destruct metrics as [|r metrics].
      * rewrite (TrainCallback_get_progress_empty m e Hf). apply Qle_refl.
      * assert (Hne : r :: metrics <> []) by discriminate.
        destruct (Z.eq_dec (_total_steps (self m)) 0) as [Hz|Hnz].
        -- destruct (TrainCallback_get_progress_zero_total m _ e Hf Hne Hz)
             as (m' & Hrun & Hp).
           rewrite Hrun. simpl. rewrite Hp. apply Qle_refl.
        -- rewrite (TrainCallback_get_progress_nonempty m _ e Hf Hne Hnz).
           simpl. apply Qnot_lt_le. intros Hlt. apply Hn.
           exists (r :: metrics), e. auto.
    + rewrite (TrainCallback_get_progress_raised m x e Hf). apply Qle_refl.
Qed.

(** [update(7)] after [update(5)] on a new handle with [total_steps = 10]. *)
Lemma progress_drops_only_when_the_count_goes_back_witness :
  let m := snd (update 5 (new_handle 10)) in
  ~ quotient 7 10 < _progress (self m) /\
  _progress (self m) <= _progress (self (snd (update 7 m))).
Proof.
  intros m.
  assert (Hn : ~ quotient 7 10 < _progress (self m))
    by (intros H; discriminate H).
  split; [exact Hn|].
  apply (proj1 progress_drops_only_when_the_count_goes_back unit unit m 7%Z).
  intros (_ & _ & H). exact (Hn H).
Defined.

(** C2, as stated, fails: on a new handle with [total_steps = 10],
    [update(5)] stores 5/10 and [update(3)] after it stores 3/10, so the
    stored progress after the second operation is smaller than before it. *)
Lemma update_with_a_smaller_step_lowers_progress :
  let C := ThreadProgressCallback_class unit in
  let before := run C [Call (inherited (call_update 5))] (new_handle 10) in
  let after := step C before (Call (inherited (call_update 3))) in
  _progress (self before) == 5 # 10 /\
  _progress (self after) == 3 # 10 /\
  ~ _progress (self before) <= _progress (self after).
Proof.
  simpl. repeat split. intros H. apply H. reflexivity.
Qed.

(** What one event does to the stored progress of a base-class handle: only
    an [update] on a handle that is not finished writes it. *)
Lemma base_step_progress {Env} (m : Machine Env unit)
  (e : event Env Empty_set) :
  let m' := step (ThreadProgressCallback_class Env) m e in
  _progress (self m') = _progress (self m) \/
  exists s, e = Call (inherited (call_update s)) /\
            _finished (self m) = false /\
            _progress (self m') = quotient s (_total_steps (self m)).
Proof.
  destruct e as [[c|[]]|f]; [|left; reflexivity].
  destruct c; unfold step, invoke, invoke_inherited;
    try (left; reflexivity).
  - unfold_methods. destruct (Qeq_bool (_progress (self m)) 0);
      left; reflexivity.
  - destruct (_finished (self m)) eqn:Hfin.
    + rewrite update_when_finished by exact Hfin. left. reflexivity.
    + destruct (Z.eq_dec (_total_steps (self m)) 0) as [Hz|Hnz].
      * rewrite update_divides_by_zero by assumption. left. reflexivity.
      * rewrite update_when_running by assumption. right.
        exists step0. auto.
  - unfold_methods. destruct (_thread (self m)) as [t|]; [|left; reflexivity].
    unfold Thread_start. destruct (threads (world m) t); left; reflexivity.
  - unfold_methods. destruct (_thread (self m)) as [t|]; [|left; reflexivity].
    unfold Thread_join. destruct (threads (world m) t); left; reflexivity.
Qed.

Lemma base_step_total_steps {Env} (m : Machine Env unit)
  (e : event Env Empty_set) :
  _total_steps (self (step (ThreadProgressCallback_class Env) m e)) =
  _total_steps (self m).
Proof.
  destruct e as [c|f]; simpl; [|reflexivity].
  apply (proj2 (ThreadProgressCallback_calls_preserve
                  (_total_steps (self m)) c)).
  reflexivity.
Qed.

(** Along a run whose [update] arguments never go back, starting from a
    handle with [total_steps > 0] whose stored progress is at most
    [lo / total_steps], no event lowers the stored progress. *)
Lemma ascending_run_never_lowers_progress {Env}
  (es : list (event Env Empty_set)) :
  forall (m : Machine Env unit) (lo : Z),
    (0 < _total_steps (self m))%Z ->
    _progress (self m) <= quotient lo (_total_steps (self m)) ->
    ascending lo (steps_of es) ->
    forall pre e post,
      es = pre ++ e :: post ->
      let C := ThreadProgressCallback_class Env in
      _progress (self (run C pre m)) <=
      _progress (self (step C (run C pre m) e)).
Proof.
  induction es as [|e0 es IH]; intros m lo Hpos Hlo Hasc pre e post Hes C.
  - destruct pre; discriminate Hes.
  - destruct pre as [|e1 pre]; simpl in Hes; injection Hes as <- Hes.
    + simpl. subst C.
      destruct (base_step_progress m e0) as [Heq|(s & -> & _ & Heq)];
        simpl in Heq |- *; rewrite Heq; [apply Qle_refl|].
      simpl in Hasc. destruct Hasc as [Hle _].
      eapply Qle_trans; [exact Hlo|]. apply quotient_mono; assumption.
    + subst es. unfold run in *. simpl fold_left at 1 2.
      assert (Hnext : exists lo',
                 _progress (self (step C m e0)) <=
                   quotient lo' (_total_steps (self m)) /\
                 ascending lo' (steps_of (pre ++ e :: post))).
      { subst C.
        destruct (base_step_progress m e0) as [Heq|(s & -> & _ & Heq)];
          simpl in Heq.
        - exists lo. simpl. rewrite Heq. split; [exact Hlo|].
          destruct e0 as [[c|[]]|f]; simpl in Hasc; try exact Hasc.
          destruct c; simpl in Hasc; try exact Hasc.
          destruct Hasc as [Hle Hasc].
          destruct (steps_of (pre ++ e :: post)) as [|s1 rest];
            simpl in *; [exact I|].
          destruct Hasc as [Hle1 Hrest]. split; [lia | exact Hrest].
        - exists s. simpl. rewrite Heq. split; [apply Qle_refl|].
          simpl in Hasc. apply Hasc. }
      destruct Hnext as (lo' & Hlo' & Hasc').
      apply (IH (step C m e0) lo') with (post := post); subst C.
      * rewrite base_step_total_steps. exact Hpos.
      * rewrite base_step_total_steps. exact Hlo'.
      * exact Hasc'.
      * reflexivity.
Qed.

(** X1.  On a new handle with [total_steps > 0], as long as the [update]
    calls pass step counts that are non-negative and never go back, the
    stored progress never decreases, whatever else is called in between. *)
Corollary progress_never_decreases_on_ascending_updates {Env}
  (n : Z) (w w' : World Env) (es : list (event Env Empty_set)) :
  (0 < n)%Z ->
  ascending 0 (steps_of es) ->
  forall pre e post,
    es = pre ++ e :: post ->
    let C := ThreadProgressCallback_class Env in
    let m0 := mkMachine (ThreadProgressCallback_init n w) w' in
    _progress (self (run C pre m0)) <=
    _progress (self (step C (run C pre m0) e)).
Proof.
  intros Hn Hasc pre e post Hes C m0.
  apply (ascending_run_never_lowers_progress es m0 0 Hn) with (post := post);
    try assumption.
  simpl. apply quotient_nonneg; [exact Hn | lia].
Qed.

(** ** The model on explicit inputs *)

Example get_remaining_time_before_first_update :
  fst (get_remaining_time (new_handle 4)) = Returned inf.
Proof. reflexivity. Qed.

(** [update(0)] stores 0, and the remaining time is still [inf]. *)
Example get_remaining_time_after_update_0 :
  fst (get_remaining_time (snd (update 0 (new_handle 4)))) = Returned inf.
Proof. reflexivity. Qed.

(** With [total_steps = 0] the first [update] raises after it has set
    [finished], so a second [update] only warns. *)
Example update_twice_with_zero_total_steps :
  let m1 := snd (update 1 (new_handle 0)) in
  fst (update 1 (new_handle 0)) = Raised ZeroDivisionError /\
  _finished (self m1) = true /\
  fst (update 1 m1) = Returned tt /\
  warnings (world (snd (update 1 m1))) = ["Callback has already ended"%string].
Proof.
  simpl. repeat split.
Qed.

(** A negative step gives a negative progress; nothing checks the range. *)
Example update_with_negative_step :
  fst (get_progress (snd (update (-1) (new_handle 2)))) = Returned (-1 / 2).
Proof. reflexivity. Qed.

(** [start] and [join] without a thread do nothing; with a registered
    thread, a second [start] raises. *)
Example start_join_without_thread :
  run (ThreadProgressCallback_class unit)
      [Call (inherited call_start); Call (inherited call_join)]
      (new_handle 3) = new_handle 3.
Proof. reflexivity. Qed.

Example start_twice_raises :
  let m := snd (register_thread 7%nat (new_handle 3)) in
  fst (start m) = Returned tt /\
  fst (start (snd (start m))) = Raised RuntimeError /\
  fst (join (snd (start m))) = Returned tt.
Proof.
  simpl. repeat split.
Qed.

(** A training handle polled while epochs are written: 1 of 2, then 2 of 2
    finishes it, then a third record pushes the progress past 1. *)
Example train_polling :
  let C := TrainCallback_class unit nat in
  let poll := Call (inherited call_get_progress) in
  let epoch := Outside (fun w : World nat => with_env (S (env w)) w) in
  let m1 := run C [epoch; poll] (new_train_handle 2 0) in
  let m2 := run C [epoch; poll] m1 in
  let m3 := run C [epoch; poll] m2 in
  (_progress (self m1) == 1 # 2 /\ _finished (self m1) = false) /\
  (_progress (self m2) == 1 /\ _finished (self m2) = true) /\
  (_progress (self m3) == 3 # 2 /\ _finished (self m3) = true).
Proof.
  simpl. repeat split.
Qed.

(** With [total_steps = 0] the training variant's [get_progress()] raises
    as soon as there is a record, whether the handle is finished or not. *)
Example train_polling_with_zero_total_steps :
  fst (TrainCallback_get_progress (new_train_handle 0 2)) =
    Raised ZeroDivisionError /\
  fst (TrainCallback_get_progress (snd (force_finish (new_train_handle 0 2)))) =
    Raised ZeroDivisionError /\
  fst (TrainCallback_get_progress (new_train_handle 0 0)) = Returned 0.
Proof.
  simpl. repeat split.
Qed.

(** * Further properties of the handle *)

(** ** The object as a function of the calls *)

(** What an inherited method writes, whatever the outside world is and
    whether the call returns or raises. *)
Lemma inherited_effect {Env X} (c : method) (m : Machine Env X) :
  self (snd (invoke_inherited (@get_progress Env X) c m)) =
  after_inherited c (self m).
Proof.
  destruct c; unfold invoke_inherited, after_inherited;
    try reflexivity.
  - unfold_methods. destruct (Qeq_bool (_progress (self m)) 0); reflexivity.
  - destruct (_finished (self m)) eqn:Hfin.
    + rewrite update_when_finished by exact Hfin. reflexivity.
    + destruct (_total_steps (self m) =? 0)%Z eqn:Hz.
      * apply Z.eqb_eq in Hz.
        rewrite update_divides_by_zero by assumption. reflexivity.
      * apply Z.eqb_neq in Hz.
        rewrite update_when_running by assumption. reflexivity.
  - unfold_methods. destruct (_thread (self m)) as [t|]; [|reflexivity].
    unfold Thread_start. destruct (threads (world m) t); reflexivity.
  - unfold_methods. destruct (_thread (self m)) as [t|]; [|reflexivity].
    unfold Thread_join. destruct (threads (world m) t); reflexivity.
Qed.

Lemma base_fields_after_inherited {X} (c : method)
  (s : ThreadProgressCallback X) :
  base_fields (after_inherited c s) = after_inherited c (base_fields s).
Proof.
  destruct c; try reflexivity. simpl.
  destruct (_finished s); [reflexivity|].
  destruct (_total_steps s =? 0)%Z; reflexivity.
Qed.

Section PlainClasses.

Context {Env X S : Type}.
Variable C : class Env X S.
Variable own_effect : S -> ThreadProgressCallback X -> ThreadProgressCallback X.
Hypothesis C_plain : plain_with C own_effect.

Lemma plain_step (m : Machine Env X) (e : event Env S) :
  self (step C m e) = after_event own_effect (self m) e.
Proof.
  destruct C_plain as (Hgp & Hown & _).
  destruct e as [[c|c]|f]; simpl.
  - rewrite Hgp. apply inherited_effect.
  - apply Hown.
  - reflexivity.
Qed.

Lemma plain_run (es : list (event Env S)) (m : Machine Env X) :
  self (run C es m) = fold_left (after_event own_effect) es (self m).
Proof.
  unfold run. revert m.
  induction es as [|e es IH]; intros m; simpl; [reflexivity|].
  rewrite IH, plain_step. reflexivity.
Qed.

(** An invariant of the base fields that the inherited calls of a run keep
    is kept by the run. *)
Lemma plain_run_invariant (I : ThreadProgressCallback unit -> Prop)
  (ok : event Env S -> Prop) :
  (forall c s, ok (Call (inherited c)) -> I s -> I (after_inherited c s)) ->
  forall es, Forall ok es ->
  forall m, I (base_fields (self m)) -> I (base_fields (self (run C es m))).
Proof.
  intros Hstep es Hes. unfold run.
  induction Hes as [|e es He Hes IH]; intros m Hm; simpl; [exact Hm|].
  apply IH. rewrite plain_step.
  destruct C_plain as (_ & _ & Hbase).
  destruct e as [[c|c]|f]; simpl.
  - rewrite base_fields_after_inherited. apply Hstep; assumption.
  - rewrite Hbase. exact Hm.
  - exact Hm.
Qed.

End PlainClasses.

Lemma ThreadProgressCallback_class_plain {Env} :
  plain_with (ThreadProgressCallback_class Env) (fun _ s => s).
Proof.
  repeat split. intros [].
Qed.

Lemma InferenceCallback_class_plain {Env} :
  plain_with (InferenceCallback_class Env) inference_effect.
Proof.
  repeat split; intros c; destruct c; reflexivity.
Qed.

Lemma ExportCallback_class_plain {Env} :
  plain_with (ExportCallback_class Env) export_effect.
Proof.
  repeat split; intros c; destruct c; reflexivity.
Qed.

Lemma fold_after_event_calls {Env X S}
  (own_effect : S -> ThreadProgressCallback X -> ThreadProgressCallback X)
  (es : list (event Env S)) (s : ThreadProgressCallback X) :
  fold_left (after_event own_effect) es s =
  fold_left (fun s c => after_event own_effect s (@Call Env S c))
            (calls_of es) s.
Proof.
  revert s. induction es as [|[c|f] es IH]; intros s; simpl;
    [reflexivity | apply IH | apply IH].
Qed.

(** X14.  The fields of a [ThreadProgressCallback], [InferenceCallback] or
    [ExportCallback] after a run depend only on the fields before it and on
    the calls and their order: not on the clock, on the state of the threads,
    on earlier warnings, nor on what happened outside between the calls. *)
Theorem plain_object_depends_only_on_calls :
  (forall Env (es1 es2 : list (event Env Empty_set)) (m1 m2 : Machine Env unit),
     calls_of es1 = calls_of es2 -> self m1 = self m2 ->
     self (run (ThreadProgressCallback_class Env) es1 m1) =
     self (run (ThreadProgressCallback_class Env) es2 m2)) /\
  (forall Env (es1 es2 : list (event Env inference_method))
          (m1 m2 : Machine Env InferenceFields),
     calls_of es1 = calls_of es2 -> self m1 = self m2 ->
     self (run (InferenceCallback_class Env) es1 m1) =
     self (run (InferenceCallback_class Env) es2 m2)) /\
  (forall Env (es1 es2 : list (event Env export_method))
          (m1 m2 : Machine Env ExportFields),
     calls_of es1 = calls_of es2 -> self m1 = self m2 ->
     self (run (ExportCallback_class Env) es1 m1) =
     self (run (ExportCallback_class Env) es2 m2)).
Proof.
  assert (H : forall Env X S (C : class Env X S) eff,
             plain_with C eff ->
             forall es1 es2 (m1 m2 : Machine Env X),
               calls_of es1 = calls_of es2 -> self m1 = self m2 ->
               self (run C es1 m1) = self (run C es2 m2)).
  { intros Env X S C eff HC es1 es2 m1 m2 Hcalls Hself.
    rewrite !(plain_run C eff HC), !fold_after_event_calls, Hcalls, Hself.
    reflexivity. }
  repeat split; intros Env es1 es2 m1 m2.
  - apply (H _ _ _ _ _ ThreadProgressCallback_class_plain).
  - apply (H _ _ _ _ _ InferenceCallback_class_plain).
  - apply (H _ _ _ _ _ ExportCallback_class_plain).
Qed.

(** The three classes that keep the base [get_progress]. *)
Lemma plain_classes :
  (forall Env, plain (ThreadProgressCallback_class Env)) /\
  (forall Env, plain (InferenceCallback_class Env)) /\
  (forall Env, plain (ExportCallback_class Env)).
Proof.
  repeat split; intros Env; eexists.
  - apply ThreadProgressCallback_class_plain.
  - apply InferenceCallback_class_plain.
  - apply ExportCallback_class_plain.
Qed.

Lemma quotient_le_1 (a b : Z) : (0 < b)%Z -> (a <= b)%Z -> quotient a b <= 1.
Proof.
  intros Hb Hab. unfold quotient.
  pose proof (inject_Z_pos b Hb) as Hbq.
  apply Qle_shift_div_r; [exact Hbq|].
  rewrite Qmult_1_l, <- Zle_Qle. exact Hab.
Qed.

Lemma steps_of_Forall {Env S} (P : Z -> Prop) (es : list (event Env S)) :
  Forall P (steps_of es) ->
  Forall (fun e => forall step,
            e = Call (inherited (call_update step)) -> P step) es.
Proof.
  induction es as [|e es IH]; intros H; constructor.
  - intros step ->. simpl in H. inversion H. assumption.
  - apply IH. destruct e as [[c|c]|f]; simpl in H; try exact H.
    destruct c; simpl in H; try exact H. inversion H. assumption.
Qed.

(** ** Progress along a run *)

(** X2.  On a handle of a class that keeps the base [get_progress], with
    [total_steps > 0] and a stored progress in [0, 1], a run whose [update]
    calls all pass a step within [0 ~ total_steps] leaves the stored progress
    in [0, 1], whatever else is called in between. *)
Theorem progress_stays_in_unit_interval {Env X S}
  (C : class Env X S) (es : list (event Env S)) (m : Machine Env X) :
  plain C ->
  (0 < _total_steps (self m))%Z ->
  0 <= _progress (self m) <= 1 ->
  Forall (in_range (_total_steps (self m))) (steps_of es) ->
  0 <= _progress (self (run C es m)) <= 1.
Proof.
  intros [eff HC] Hpos Hm Hes.
  set (n := _total_steps (self m)) in *.
  apply (plain_run_invariant C eff HC
           (fun s => _total_steps s = n /\ 0 <= _progress s <= 1)
           (fun e => forall step,
              e = Call (inherited (call_update step)) -> in_range n step)).
  - intros c s Hok (Hn & Hp).
    destruct c; simpl; try (split; assumption).
    destruct (_finished s); [split; assumption|].
    destruct (_total_steps s =? 0)%Z; simpl; [split; assumption|].
    split; [exact Hn|]. rewrite Hn.
    destruct (Hok step0 eq_refl) as [H0 H1].
    split; [apply quotient_nonneg | apply quotient_le_1]; assumption.
  - apply steps_of_Forall. exact Hes.
  - simpl. split; [reflexivity | exact Hm].
Qed.

(** A new handle of 4 steps, updated within range, finished by hand and
    updated again. *)
Lemma progress_stays_in_unit_interval_witness :
  let es := [Call (inherited (call_update 1)); Call (inherited call_start);
             Call (inherited (call_update 4)); Call (inherited (call_update 2))]
  in
  Forall (in_range 4) (steps_of es) /\
  0 <= _progress (self (run (ThreadProgressCallback_class unit) es
                            (new_handle 4))) <= 1.
Proof.
  intros es.
  assert (Hes : Forall (in_range 4) (steps_of es))
    by (repeat constructor; unfold in_range; lia).
  split; [exact Hes|].
  apply (progress_stays_in_unit_interval
           (ThreadProgressCallback_class unit) es (new_handle 4)).
  - apply (proj1 plain_classes).
  - simpl. lia.
  - simpl. split; [apply Qle_refl | discriminate].
  - exact Hes.
Defined.

(** X3.  On a handle of a class that keeps the base [get_progress], with
    [0 < total_steps <= 2^53], "finished exactly when the stored progress has
    reached 1" is an invariant of every run without [force_finish] whose
    [update] steps keep [step / total_steps] within the range of a float; it
    holds on a new handle, so there [is_finished()] is true exactly when the
    stored progress is at least 1. *)
Theorem finished_iff_progress_reached_one {Env X S}
  (C : class Env X S) (es : list (event Env S)) (m : Machine Env X) :
  plain C ->
  (0 < _total_steps (self m) <= 2 ^ 53)%Z ->
  (_finished (self m) = true <-> 1 <= _progress (self m)) ->
  Forall not_force_finish es ->
  Forall (fun step => float_range step (_total_steps (self m))) (steps_of es) ->
  (_finished (self (run C es m)) = true <->
   1 <= _progress (self (run C es m))).
Proof.
  intros [eff HC] [Hpos _] Hm Hes _.
  set (n := _total_steps (self m)) in *.
  apply (plain_run_invariant C eff HC
           (fun s => _total_steps s = n /\
                     (_finished s = true <-> 1 <= _progress s))
           not_force_finish).
  - intros c s Hok (Hn & Hp).
    destruct c; simpl; try (split; assumption).
    + destruct (_finished s) eqn:Hfin;
        [rewrite Hfin; split; assumption|].
      destruct (_total_steps s =? 0)%Z eqn:Hz; simpl.
      * apply Z.eqb_eq in Hz. lia.
      * split; [exact Hn|]. rewrite Hn. split.
        -- intros Hge. apply Z.geb_le in Hge.
           apply quotient_ge_1; assumption.
        -- intros Hq. apply Z.geb_le.
           destruct (Z_le_gt_dec n step0) as [Hle|Hgt]; [exact Hle|].
           exfalso. apply (Qlt_not_le _ _ (quotient_lt_1 step0 n Hpos
                                             ltac:(lia)) Hq).
    + exfalso. apply Hok. reflexivity.
  - exact Hes.
  - simpl. split; [reflexivity | exact Hm].
Qed.

(** A new handle of 4 steps after [update(1)], [update(5)], [update(2)]. *)
Lemma finished_iff_progress_reached_one_witness :
  let es := [Call (inherited (call_update 1)); Call (inherited (call_update 5));
             Call (inherited (call_update 2))] in
  let m := run (ThreadProgressCallback_class unit) es (new_handle 4) in
  Forall not_force_finish es /\
  Forall (fun step => float_range step 4) (steps_of es) /\
  (_finished (self m) = true <-> 1 <= _progress (self m)).
Proof.
  intros es m.
  assert (Hes : Forall not_force_finish es)
    by (repeat constructor; discriminate).
  assert (Hr : Forall (fun step => float_range step 4) (steps_of es))
    by (repeat constructor; vm_compute; reflexivity).
  split; [exact Hes|]. split; [exact Hr|].
  apply (finished_iff_progress_reached_one
           (ThreadProgressCallback_class unit) es (new_handle 4)).
  - apply (proj1 plain_classes).
  - simpl. split; [lia | vm_compute; discriminate].
  - simpl. split; [discriminate | intros H; exfalso; apply H; reflexivity].
  - exact Hes.
  - exact Hr.
Defined.

(** X4.  On a handle of a class that keeps the base [get_progress], once
    [finished] is set (by an [update] that reached [total_steps] or by
    [force_finish]) the stored progress never changes again: every later
    [update] is ignored, whatever its step. *)
Theorem progress_is_frozen_once_finished {Env X S}
  (C : class Env X S) (es : list (event Env S)) (m : Machine Env X) :
  plain C ->
  _finished (self m) = true ->
  _finished (self (run C es m)) = true /\
  _progress (self (run C es m)) = _progress (self m).
Proof.
  intros [eff HC] Hfin.
  apply (plain_run_invariant C eff HC (frozen_at (_progress (self m)))
           (fun _ => True)).
  - intros c s _ (Hf & Hp).
    destruct c; unfold frozen_at; simpl; try (split; assumption).
    + rewrite Hf. split; assumption.
    + split; [reflexivity | exact Hp].
  - clear. induction es; constructor; trivial.
  - split; [exact Hfin | reflexivity].
Qed.

(** A handle stopped by [force_finish()] at 1 of 4 steps, then updated. *)
Lemma progress_is_frozen_once_finished_witness :
  let C := ThreadProgressCallback_class unit in
  let m := run C [Call (inherited (call_update 1));
                  Call (inherited call_force_finish)] (new_handle 4) in
  let es := [Call (inherited (call_update 3)); Call (inherited (call_update 9))]
  in
  _finished (self m) = true /\
  _progress (self (run C es m)) = quotient 1 4.
Proof.
  intros C m es. split; [reflexivity|].
  apply (progress_is_frozen_once_finished C es m);
    [apply (proj1 plain_classes) | reflexivity].
Defined.

(** ** Threads *)

(** X13.  On a handle of a class that keeps the base [get_progress], as long
    as [register_thread] has not been called (as on a new handle), [start()]
    and [join()] return and change nothing, neither the object nor the
    outside world. *)
Theorem start_and_join_do_nothing_without_a_thread {Env X S}
  (C : class Env X S) (es : list (event Env S)) (m : Machine Env X) :
  plain C ->
  _thread (self m) = None ->
  Forall not_register_thread es ->
  start (run C es m) = (Returned tt, run C es m) /\
  join (run C es m) = (Returned tt, run C es m).
Proof.
  intros [eff HC] Hm Hes.
  assert (Hnone : _thread (self (run C es m)) = None).
  { apply (plain_run_invariant C eff HC (fun s => _thread s = None)
             not_register_thread).
    - intros c s Hok Hs. destruct c; simpl; try exact Hs.
      + destruct (_finished s); [exact Hs|].
        destruct (_total_steps s =? 0)%Z; exact Hs.
      + exfalso. apply (Hok thread). reflexivity.
    - exact Hes.
    - exact Hm. }
  unfold start, join, bind, attr. rewrite Hnone. split; reflexivity.
Qed.

(** A new handle after two updates. *)
Lemma start_and_join_do_nothing_without_a_thread_witness :
  let C := ThreadProgressCallback_class unit in
  let es := [Call (inherited (call_update 1)); Call (inherited (call_update 2))]
  in
  Forall not_register_thread es /\
  start (run C es (new_handle 4)) = (Returned tt, run C es (new_handle 4)) /\
  join (run C es (new_handle 4)) = (Returned tt, run C es (new_handle 4)).
Proof.
  intros C es.
  assert (Hes : Forall not_register_thread es)
    by (repeat constructor; intros t; discriminate).
  split; [exact Hes|].
  apply (start_and_join_do_nothing_without_a_thread C es (new_handle 4));
    [apply (proj1 plain_classes) | reflexivity | exact Hes].
Defined.

(** A new handle of 4 steps: [update(1)], [get_progress()], [update(3)]. *)
Lemma progress_never_decreases_on_ascending_updates_witness :
  let C := ThreadProgressCallback_class unit in
  let pre := [Call (inherited (call_update 1));
              Call (inherited call_get_progress)] in
  let e := Call (inherited (call_update 3)) in
  ascending 0 (steps_of (pre ++ [e])) /\
  _progress (self (run C pre (new_handle 4))) <=
  _progress (self (step C (run C pre (new_handle 4)) e)).
Proof.
  intros C pre e.
  assert (Hasc : ascending 0 (steps_of (pre ++ [e]))) by (simpl; lia).
  split; [exact Hasc|].
  apply (progress_never_decreases_on_ascending_updates 4 world0 world0
           (pre ++ [e]) ltac:(lia) Hasc pre e [] eq_refl).
Defined.

(** ** Errors and warnings *)

(** X5.  [update] never rejects a step: whatever the step (negative, or past
    [total_steps]), as long as [step / total_steps] is within the range of a
    float, the call raises only when the handle is not finished and
    [total_steps] is 0, and then it raises [ZeroDivisionError]; in every
    other state it returns. *)
Theorem update_raises_only_on_zero_total_steps {Env X}
  (m : Machine Env X) (step : Z) :
  (_total_steps (self m) <> 0%Z -> float_range step (_total_steps (self m))) ->
  (fst (update step m) = Returned tt <->
   _finished (self m) = true \/ _total_steps (self m) <> 0%Z) /\
  (fst (update step m) = Raised ZeroDivisionError <->
   _finished (self m) = false /\ _total_steps (self m) = 0%Z).
Proof.
  intros _.
  destruct (_finished (self m)) eqn:Hfin.
  - rewrite update_when_finished by exact Hfin. simpl.
    repeat split; try discriminate; auto.
    intros [H _]. discriminate H.
  - destruct (Z.eq_dec (_total_steps (self m)) 0) as [Hz|Hnz].
    + rewrite update_divides_by_zero by assumption. simpl.
      repeat split; try discriminate; auto.
      intros [H|H]; [discriminate H | contradiction].
    + rewrite update_when_running by assumption. simpl.
      repeat split; try discriminate; auto.
      intros [_ H]. contradiction.
Qed.

(** [update(-3)] and [update(9)] on a new handle of 4 steps, and [update(9)]
    on a new handle of 0 steps. *)
Lemma update_raises_only_on_zero_total_steps_witness :
  float_range (-3) 4 /\ float_range 9 4 /\
  fst (update (-3) (new_handle 4)) = Returned tt /\
  fst (update 9 (new_handle 4)) = Returned tt /\
  fst (update 9 (new_handle 0)) = Raised ZeroDivisionError.
Proof.
  assert (H3 : float_range (-3) 4) by (vm_compute; reflexivity).
  assert (H9 : float_range 9 4) by (vm_compute; reflexivity).
  split; [exact H3|]. split; [exact H9|]. split; [|split].
  - apply (proj1 (update_raises_only_on_zero_total_steps (new_handle 4) (-3)
                    (fun _ => H3))).
    right. simpl. lia.
  - apply (proj1 (update_raises_only_on_zero_total_steps (new_handle 4) 9
                    (fun _ => H9))).
    right. simpl. lia.
  - apply (proj2 (update_raises_only_on_zero_total_steps (new_handle 0) 9
                    (fun H => False_ind _ (H eq_refl)))).
    split; reflexivity.
Defined.

(** X12.  The only warning is the one for a late [update]: a call of an
    inherited method (with the base [get_progress]) adds the message
    "Callback has already ended" to the warnings when it is an [update] on a
    finished handle, and leaves the warnings as they are in every other
    case; so [update] on a handle that is not finished never warns. *)
Theorem only_a_late_update_warns {Env X} (c : method) (m : Machine Env X) :
  let m' := snd (invoke_inherited (@get_progress Env X) c m) in
  ((exists step, c = call_update step) /\ _finished (self m) = true ->
   warnings (world m') =
     "Callback has already ended"%string :: warnings (world m)) /\
  (~ ((exists step, c = call_update step) /\ _finished (self m) = true) ->
   warnings (world m') = warnings (world m)).
Proof.
  destruct c; simpl; split;
    try (intros [[s Hs] _]; discriminate Hs); try (intros _; reflexivity).
  - intros _. unfold_methods.
    destruct (Qeq_bool (_progress (self m)) 0); reflexivity.
  - intros [_ Hfin]. rewrite update_when_finished by exact Hfin. reflexivity.
  - intros Hn. destruct (_finished (self m)) eqn:Hfin.
    + exfalso. apply Hn. split; [exists step0; reflexivity | reflexivity].
    + destruct (Z.eq_dec (_total_steps (self m)) 0) as [Hz|Hnz].
      * rewrite update_divides_by_zero by assumption. reflexivity.
      * rewrite update_when_running by assumption. reflexivity.
  - intros _. unfold_methods.
    destruct (_thread (self m)) as [t|]; [|reflexivity].
    unfold Thread_start. destruct (threads (world m) t); reflexivity.
  - intros _. unfold_methods.
    destruct (_thread (self m)) as [t|]; [|reflexivity].
    unfold Thread_join. destruct (threads (world m) t); reflexivity.
Qed.

(** [update(1)] on a handle of 4 steps that [force_finish()] has stopped. *)
Lemma only_a_late_update_warns_witness :
  let m := snd (force_finish (new_handle 4)) in
  _finished (self m) = true /\
  warnings (world (snd (invoke_inherited (@get_progress unit unit)
                          (call_update 1) m))) =
    ["Callback has already ended"%string] /\
  warnings (world (snd (invoke_inherited (@get_progress unit unit)
                          (call_update 1) (new_handle 4)))) = [].
Proof.
  intros m. split; [reflexivity|]. split.
  - apply (proj1 (only_a_late_update_warns (call_update 1) m)).
    split; [exists 1%Z; reflexivity | reflexivity].
  - apply (proj2 (only_a_late_update_warns (call_update 1) (new_handle 4))).
    intros [_ H]. discriminate H.
Defined.

(** X11.  [TrainCallback.get_progress()] raises in two cases only: when the
    metric function raises, and then its exception comes out and the object
    is left as it was; and when the metric function returns a non-empty list
    while [total_steps] is 0, and then [ZeroDivisionError] comes out. *)
Theorem TrainCallback_get_progress_raises {Metric Env}
  (m : Machine Env (TrainFields Metric Env)) (x : exn) :
  let called := _get_metric_func (subclass_fields (self m)) (env (world m)) in
  (fst (TrainCallback_get_progress m) = Raised x <->
   fst called = Raised x \/
   (x = ZeroDivisionError /\
    exists metrics, fst called = Returned metrics /\ metrics <> [] /\
                    _total_steps (self m) = 0%Z)) /\
  (fst called = Raised x ->
   self (snd (TrainCallback_get_progress m)) = self m).
Proof.
  intros called. subst called.
  destruct (_get_metric_func (subclass_fields (self m)) (env (world m)))
    as [[metrics|x0] e] eqn:Hf; simpl.
  - split; [|intros H; discriminate H].
    destruct metrics as [|r metrics].
    + rewrite (TrainCallback_get_progress_empty m e Hf). simpl. split.
      * intros H. discriminate H.
      * intros [H|(_ & l & Hl & Hne & _)]; [discriminate H|].
        exfalso. apply Hne. congruence.
    + assert (Hne : r :: metrics <> []) by discriminate.
      destruct (Z.eq_dec (_total_steps (self m)) 0) as [Hz|Hnz].
      * destruct (TrainCallback_get_progress_zero_total m _ e Hf Hne Hz)
          as (m' & Hrun & _).
        rewrite Hrun. simpl. split.
        -- intros H. right. split; [congruence|].
           exists (r :: metrics). auto.
        -- intros [H|(-> & _)]; [discriminate H | reflexivity].
      * rewrite (TrainCallback_get_progress_nonempty m _ e Hf Hne Hnz).
        simpl. split.
        -- intros H. discriminate H.
        -- intros [H|(_ & l & _ & _ & Hz)]; [discriminate H | contradiction].
  - rewrite (TrainCallback_get_progress_raised m x0 e Hf). simpl. split.
    + split.
      * intros H. left. inversion H. reflexivity.
      * intros [H|(_ & l & Hl & _)];
          [inversion H; reflexivity | discriminate Hl].
    + intros _. reflexivity.
Qed.

(** A training handle whose metric function raises, and one with
    [total_steps = 0] and two records. *)
Lemma TrainCallback_get_progress_raises_witness :
  fst (TrainCallback_get_progress (new_failing_train_handle 4)) =
    Raised RuntimeError /\
  self (snd (TrainCallback_get_progress (new_failing_train_handle 4))) =
    self (new_failing_train_handle 4) /\
  fst (TrainCallback_get_progress (new_train_handle 0 2)) =
    Raised ZeroDivisionError.
Proof.
  split; [|split].
  - apply (proj1 (TrainCallback_get_progress_raises
                    (new_failing_train_handle 4) RuntimeError)).
    left. reflexivity.
  - apply (proj2 (TrainCallback_get_progress_raises
                    (new_failing_train_handle 4) RuntimeError)).
    reflexivity.
  - apply (proj1 (TrainCallback_get_progress_raises
                    (new_train_handle 0 2) ZeroDivisionError)).
    right. split; [reflexivity|].
    exists [tt; tt]. repeat split. discriminate.
Defined.

(** ** How calls compose *)



(** ** The estimate of the remaining time *)



(** ** What is fixed at construction *)

Ltac preserves_more_step :=
  first
    [ apply preserves_bind; [|intro]
    | apply preserves_discard
    | solve [auto with callback]
    | apply preserves_assign;
      let s := fresh "s" in
      let Hs := fresh "Hs" in
      intros s Hs; unfold started_at, polls in *; simpl;
      solve [exact Hs | reflexivity]
    | match goal with
      | |- preserves _ (if ?b then _ else _) => destruct b
      | |- preserves _ (match ?o with Some _ => _ | None => _ end) =>
          destruct o
      end ].

Ltac solve_preserves_more := repeat preserves_more_step.

Lemma inherited_preserve_started_at {Env X} (t : Q) (gp : M Env X Q)
  (c : method) :
  preserves (started_at t) gp ->
  preserves (started_at t) (invoke_inherited gp c).
Proof.
  intros Hgp. destruct c; simpl;
    unfold is_finished, get_remaining_time, update, force_finish,
      register_thread, start, join, set_finished, set_progress, set_thread;
    solve_preserves_more.
Qed.

Lemma TrainCallback_get_progress_preserves_started_at {Metric Env} (t : Q) :
  preserves (started_at t) (@TrainCallback_get_progress Metric Env).
Proof. unfold_class_methods. solve_preserves_more. Qed.

Lemma TrainCallback_calls_preserve_polls {Metric Env}
  (f : metric_func Metric Env) (c : call train_method) :
  preserves (polls f) (invoke (TrainCallback_class Metric Env) c).
Proof.
  destruct c as [c|c]; simpl.
  - destruct c; simpl; unfold_class_methods; solve_preserves_more.
  - intros m Hm. destruct c; try exact Hm.
    unfold get_metrics, discard, bind, call_get_metric_func. simpl.
    destruct (_get_metric_func (subclass_fields (self m)) (env (world m)))
      as [[r|x] e]; exact Hm.
Qed.

(** X8.  Two fields are written by the constructor only.  No call on a
    handle of any of the four classes changes [_start_time]: [start()] does
    not reset it, so the elapsed time of [get_remaining_time()] always counts
    from construction.  And no call on a training handle replaces its metric
    function. *)
Theorem start_time_and_metric_function_never_change :
  (forall Env es (m : Machine Env unit),
     _start_time (self (run (ThreadProgressCallback_class Env) es m)) =
     _start_time (self m)) /\
  (forall Metric Env es (m : Machine Env (TrainFields Metric Env)),
     _start_time (self (run (TrainCallback_class Metric Env) es m)) =
     _start_time (self m) /\
     _get_metric_func
       (subclass_fields (self (run (TrainCallback_class Metric Env) es m))) =
     _get_metric_func (subclass_fields (self m))) /\
  (forall Env es (m : Machine Env InferenceFields),
     _start_time (self (run (InferenceCallback_class Env) es m)) =
     _start_time (self m)) /\
  (forall Env es (m : Machine Env ExportFields),
     _start_time (self (run (ExportCallback_class Env) es m)) =
     _start_time (self m)) /\
  (forall Env n (w : World Env),
     _start_time (ThreadProgressCallback_init n w) = clock w).
Proof.
  assert (Hrun : forall Env X S (C : class Env X S),
             (forall t c, preserves (started_at t) (invoke C c)) ->
             forall es (m : Machine Env X),
               _start_time (self (run C es m)) = _start_time (self m)).
  { intros Env X S C HC es m.
    apply (run_preserves (started_at (_start_time (self m))) C (HC _)).
    reflexivity. }
  split; [|split; [|split; [|split]]].
  - intros Env es m. apply Hrun. intros t [c|[]]. simpl.
    apply inherited_preserve_started_at, keeps_self_preserves,
      get_progress_keeps_self.
  - intros Metric Env es m. split.
    + apply Hrun. intros t [c|c]; simpl.
      * apply inherited_preserve_started_at,
          TrainCallback_get_progress_preserves_started_at.
      * destruct c; unfold_class_methods; solve_preserves_more.
    + apply (run_preserves
               (polls (_get_metric_func (subclass_fields (self m))))
               (TrainCallback_class Metric Env)
               (TrainCallback_calls_preserve_polls _)).
      reflexivity.
  - intros Env es m. apply Hrun. intros t [c|c]; simpl.
    + apply inherited_preserve_started_at, keeps_self_preserves,
        get_progress_keeps_self.
    + destruct c; unfold_class_methods; solve_preserves_more.
  - intros Env es m. apply Hrun. intros t [c|c]; simpl.
    + apply inherited_preserve_started_at, keeps_self_preserves,
        get_progress_keeps_self.
    + destruct c; unfold_class_methods; solve_preserves_more.
  - reflexivity.
Qed.

(** ** The path properties *)

(** X9.  The four path properties of a [TrainCallback] are independent
    cells: they read [None] on a new handle; after a setter, its own property
    reads the path that was set and the other three read what they read
    before; and a setter returns and changes nothing else, neither the base
    fields (progress, finished, total steps, thread, start time) nor the
    metric function nor the outside world. *)
Theorem TrainCallback_paths_are_independent {Metric Env}
  (m : Machine Env (TrainFields Metric Env)) (path : string) :
  (forall n (f : metric_func Metric Env) (w : World Env),
     train_paths (mkMachine (TrainCallback_init n f w) w) =
     (Returned None, Returned None, Returned None, Returned None)) /\
  train_paths (snd (set_best_ckpt_file path m)) =
    (Returned (Some path), fst (last_ckpt_file m),
     fst (result_dir m), fst (metric_file m)) /\
  train_paths (snd (set_last_ckpt_file path m)) =
    (fst (best_ckpt_file m), Returned (Some path),
     fst (result_dir m), fst (metric_file m)) /\
  train_paths (snd (set_result_dir path m)) =
    (fst (best_ckpt_file m), fst (last_ckpt_file m),
     Returned (Some path), fst (metric_file m)) /\
  train_paths (snd (set_metric_file path m)) =
    (fst (best_ckpt_file m), fst (last_ckpt_file m),
     fst (result_dir m), Returned (Some path)) /\
  (forall set,
     In set [@set_best_ckpt_file Metric Env; @set_last_ckpt_file Metric Env;
             @set_result_dir Metric Env; @set_metric_file Metric Env] ->
     fst (set path m) = Returned tt /\
     base_fields (self (snd (set path m))) = base_fields (self m) /\
     _get_metric_func (subclass_fields (self (snd (set path m)))) =
       _get_metric_func (subclass_fields (self m)) /\
     world (snd (set path m)) = world m).
Proof.
  repeat split; try reflexivity;
    simpl in H; decompose [or] H; subst; try contradiction; reflexivity.
Qed.

(** X10.  The path properties of an [InferenceCallback] and of an
    [ExportCallback] behave the same way: [None] on a new handle, the path
    that was set afterwards, the other property untouched, and nothing else
    changed by a setter. *)
Theorem InferenceCallback_and_ExportCallback_paths {Env}
  (mi : Machine Env InferenceFields) (me : Machine Env ExportFields)
  (path : string) :
  (forall n (w : World Env),
     inference_paths (mkMachine (InferenceCallback_init n w) w) =
       (Returned None, Returned None) /\
     fst (export_file (mkMachine (ExportCallback_init n w) w)) =
       Returned None) /\
  inference_paths (snd (set_inference_dir path mi)) =
    (Returned (Some path), fst (draw_dir mi)) /\
  inference_paths (snd (set_draw_dir path mi)) =
    (fst (inference_dir mi), Returned (Some path)) /\
  fst (export_file (snd (set_export_file path me))) = Returned (Some path) /\
  (forall set,
     In set [@set_inference_dir Env; @set_draw_dir Env] ->
     fst (set path mi) = Returned tt /\
     base_fields (self (snd (set path mi))) = base_fields (self mi) /\
     world (snd (set path mi)) = world mi) /\
  (fst (set_export_file path me) = Returned tt /\
   base_fields (self (snd (set_export_file path me))) =
     base_fields (self me) /\
   world (snd (set_export_file path me)) = world me).
Proof.
  repeat split; try reflexivity;
    simpl in H; decompose [or] H; subst; try contradiction; reflexivity.
Qed.

(** ** Polling a training handle *)

(** X15.  When the metric function returns a non-empty list and
    [total_steps] is not 0, the training variant's [get_progress()] goes
    through [update]: on a finished handle every such poll adds the warning
    "Callback has already ended", on a handle that is not finished it adds
    none.  The object it leaves depends on the count only: a second poll
    that sees the same number of records leaves the same object. *)
Theorem TrainCallback_polling {Metric Env}
  (m : Machine Env (TrainFields Metric Env))
  (metrics metrics' : list Metric) (e e' : Env) :
  _get_metric_func (subclass_fields (self m)) (env (world m)) =
    (Returned metrics, e) ->
  metrics <> [] ->
  _total_steps (self m) <> 0%Z ->
  let m1 := snd (TrainCallback_get_progress m) in
  warnings (world m1) =
    (if _finished (self m)
     then "Callback has already ended"%string :: warnings (world m)
     else warnings (world m)) /\
  (_get_metric_func (subclass_fields (self m)) e = (Returned metrics', e') ->
   len metrics' = len metrics ->
   self (snd (TrainCallback_get_progress m1)) = self m1).
Proof.
  intros Hf Hne Hnz m1. subst m1.
  rewrite (TrainCallback_get_progress_nonempty m metrics e Hf Hne Hnz).
  simpl. split.
  - destruct (_finished (self m)); reflexivity.
  - intros Hf' Hlen.
    set (m1 := mkMachine _ _).
    assert (Hne' : metrics' <> []).
    { intros ->. apply Hne. destruct metrics; [reflexivity|].
      unfold len in Hlen. simpl in Hlen. lia. }
    assert (Hf1 : _get_metric_func (subclass_fields (self m1))
                    (env (world m1)) = (Returned metrics', e')).
    { subst m1. simpl. destruct (_finished (self m)); exact Hf'. }
    rewrite (TrainCallback_get_progress_nonempty m1 metrics' e' Hf1 Hne')
      by exact Hnz.
    subst m1. simpl. unfold recounted. simpl. rewrite Hlen.
    destruct (_finished (self m)); simpl;
      destruct (len metrics >=? _total_steps (self m))%Z; reflexivity.
Qed.

(** A training handle of 4 steps with two epochs written, stopped by
    [force_finish()] and polled twice. *)
Lemma TrainCallback_polling_witness :
  let m := snd (force_finish (new_train_handle 4 2)) in
  let m1 := snd (TrainCallback_get_progress m) in
  warnings (world m1) = ["Callback has already ended"%string] /\
  self (snd (TrainCallback_get_progress m1)) = self m1.
Proof.
  intros m m1.
  assert (Hne : [tt; tt] <> @nil unit) by discriminate.
  assert (Hnz : _total_steps (self m) <> 0%Z) by (simpl; lia).
  destruct (TrainCallback_polling m [tt; tt] [tt; tt] 2%nat 2%nat
              eq_refl Hne Hnz) as (Hw & Hsame).
  split; [exact Hw|].
  apply Hsame; reflexivity.
Defined.




(** * The methods over IEEE doubles, on explicit inputs

    Where the doubles agree with the exact quotients, and where they do not:
    the cases that the [float_range] conditions above keep out. *)

(** A quarter done in 30 seconds: 0.25 is stored and 90.0 remain. *)
Example binary64_quarter_done :
  let h := snd (Binary64.update 1 (Binary64.init 4 (Binary64.float_of_int 10)))
  in
  Binary64._progress h = SpecFloat.S754_finite false 4503599627370496 (-54) /\
  Binary64.get_remaining_time (Binary64.float_of_int 40) h =
    Binary64.float_of_int 90.
Proof.
  vm_compute. repeat split.
Qed.

(** [ThreadProgressCallback(2).update(4)] stores 2.0. *)
Example binary64_update_past_total :
  let h := snd (Binary64.update 4 (Binary64.init 2 (Binary64.float_of_int 0)))
  in
  Binary64._finished h = true /\
  Binary64._progress h = Binary64.float_of_int 2.
Proof.
  vm_compute. repeat split.
Qed.

(** [ThreadProgressCallback(1).update(10**400)] sets [finished] and then
    raises [OverflowError]: nothing is stored.  With [-10**400] the call
    raises too, in the other branch. *)
Example binary64_update_overflows :
  let new := Binary64.init 1 (Binary64.float_of_int 0) in
  Binary64.update (10 ^ 400) new =
    (Some Binary64.OverflowError, Binary64.set_finished true new) /\
  Binary64.update (- 10 ^ 400) new = (Some Binary64.OverflowError, new) /\
  ~ float_range (10 ^ 400) 1.
Proof.
  vm_compute. repeat split. intros H. discriminate H.
Qed.

(** Rounding at 1: with [total_steps = 2**54 + 1], [update(2**54)] stores
    1.0 and leaves [finished] false; with [total_steps = 2**54],
    [update(2**54 + 1)] stores 1.0 as well. *)
Example binary64_rounds_to_one :
  let now := Binary64.float_of_int 0 in
  let below := snd (Binary64.update (2 ^ 54) (Binary64.init (2 ^ 54 + 1) now))
  in
  let above := snd (Binary64.update (2 ^ 54 + 1) (Binary64.init (2 ^ 54) now))
  in
  (Binary64._progress below = Binary64.float_of_int 1 /\
   Binary64._finished below = false) /\
  (Binary64._progress above = Binary64.float_of_int 1 /\
   Binary64._finished above = true).
Proof.
  vm_compute. repeat split.
Qed.

(** With [total_steps = 0], [update] sets [finished] and raises
    [ZeroDivisionError]; the next [update] only warns. *)
Example binary64_update_with_zero_total_steps :
  let new := Binary64.init 0 (Binary64.float_of_int 0) in
  Binary64.update 1 new =
    (Some Binary64.ZeroDivisionError, Binary64.set_finished true new) /\
  fst (Binary64.update 1 (snd (Binary64.update 1 new))) = None.
Proof.
  vm_compute. repeat split.
Qed.
